(** * Smart-Bank-Recommender: the Express gateway in front of the ML service

    A shallow embedding of the TypeScript backend (controllers, routes,
    validation middleware and the ML-service client) together with the
    properties that its specification states about the request/response
    boundary.

    Conventions of the embedding:
    - a JavaScript value that came out of JSON is a [jsval]; [undefined] is
      the [None] of an [option jsval];
    - JavaScript numbers are rationals ([Q]) or integers ([Z]); where the
      code turns a string into a number ([parseInt], [parseFloat]) the value
      is rounded to the nearest double, as JavaScript does; a [JNum] of a
      request body is the double [JSON.parse] made of it; the exponent range
      has no upper end, so a magnitude of 2^1024 or more, which JavaScript
      makes Infinity, stays a finite number;
    - strings are sequences of code units below 256;
    - module-level mutable bindings ([profiles], [nextId], [usageLogs],
      [nextLogId]), the logger output and the remote ML service are fields
      of one [World] that every handler threads through. *)

From Stdlib Require Import ZArith QArith Qabs String Ascii List Bool Lia.
From stdpp Require Import base gmap strings list.

Local Open Scope Z_scope.
Local Open Scope string_scope.

(** ** JSON values and JavaScript objects *)

#[warnings="-register-all"]
Inductive jsval : Type :=
| JNull
| JBool (b : bool)
| JNum (q : Q)
| JStr (s : string)
| JArr (items : list jsval)
| JObj (fields : list (string * jsval)).

Definition JInt (n : Z) : jsval := JNum (inject_Z n).

Fixpoint assoc (k : string) (fs : list (string * jsval)) : option jsval :=
  match fs with
  | [] => None
  | (k', v) :: rest => if String.eqb k k' then Some v else assoc k rest
  end.

(** [o.k]: reading a property.  A missing property, and any property of a
    value that is not an object literal, reads as [undefined]. *)
Definition prop (k : string) (o : jsval) : option jsval :=
  match o with
  | JObj fs => assoc k fs
  | _ => None
  end.

(** An object literal as it is serialised: a property whose value is
    [undefined] is left out by [JSON.stringify]. *)
Fixpoint literal (fs : list (string * option jsval)) : list (string * jsval) :=
  match fs with
  | [] => []
  | (k, Some v) :: rest => (k, v) :: literal rest
  | (_, None) :: rest => literal rest
  end.

Definition obj (fs : list (string * option jsval)) : jsval := JObj (literal fs).

Definition keys (o : jsval) : list string :=
  match o with
  | JObj fs => map fst fs
  | _ => []
  end.

(** [a === n] for a number [n]. *)
Definition strict_eq_num (a : jsval) (n : Z) : bool :=
  match a with
  | JNum q => Qeq_bool q (inject_Z n)
  | _ => false
  end.

(** ** utils/constants.ts *)

Module HTTP_STATUS.
Definition OK : Z := 200.
Definition CREATED : Z := 201.
Definition BAD_REQUEST : Z := 400.
Definition NOT_FOUND : Z := 404.
Definition INTERNAL_SERVER_ERROR : Z := 500.
Definition BAD_GATEWAY : Z := 502.
Definition SERVICE_UNAVAILABLE : Z := 503.
End HTTP_STATUS.

Module ERROR_MESSAGES.
Definition VALIDATION_ERROR : string := "Validation error".
Definition ML_SERVICE_ERROR : string := "ML service communication error".
Definition INTERNAL_ERROR : string := "Internal server error".
Definition NOT_FOUND : string := "Resource not found".
End ERROR_MESSAGES.

(** ** types/index.ts *)

(** [UserProfile]: the interface declares exactly four members.  At run
    time each holds whatever the request body held, possibly [undefined]. *)
Record UserProfile : Type := {
  income : option jsval;
  spending_score : option jsval;
  saving_frequency : option jsval;
  loan_behavior : option jsval;
}.

(** The members of the declared [RecommendationResponse] interface. *)
Definition RecommendationResponse_members : list string :=
  ["recommended_account"; "recommended_savings"; "recommended_loan";
   "recommended_digital_service"; "cluster_segment"].

Record UsageLog : Type := {
  user_id : option jsval;
  action : option jsval;
  metadata : jsval;
}.

Definition UserProfile_json (p : UserProfile) : jsval :=
  obj [("income", income p);
       ("spending_score", spending_score p);
       ("saving_frequency", saving_frequency p);
       ("loan_behavior", loan_behavior p)].

(** ** Thrown values, axios outcomes, the world *)

Inductive thrown : Type :=
| ErrorObj (message : string)
    (** [new Error(message)], or an Error subclass other than AxiosError *)
| AxiosErr (message : string) (response : option (Z * jsval))
    (** an AxiosError, with [response?.status] and [response?.data] *)
| NonError (v : jsval).
    (** a thrown value that is not an instance of Error *)

Definition instanceof_Error (e : thrown) : bool :=
  match e with
  | ErrorObj _ | AxiosErr _ _ => true
  | NonError _ => false
  end.

Definition isAxiosError (e : thrown) : bool :=
  match e with
  | AxiosErr _ _ => true
  | _ => false
  end.

Definition error_message (e : thrown) : string :=
  match e with
  | ErrorObj m | AxiosErr m _ => m
  | NonError _ => ""
  end.

Definition thrown_json (e : thrown) : jsval :=
  match e with
  | ErrorObj m => JObj [("message", JStr m)]
  | AxiosErr m r =>
      obj [("message", Some (JStr m));
           ("status", (fun r => JInt (fst r)) <$> r);
           ("data", snd <$> r)]
  | NonError v => v
  end.

Record AxiosResponse : Type := { status : Z; data : jsval }.

(** What one HTTP exchange through the axios instance comes to: the promise
    resolves with a response, or it rejects. *)
Inductive AxiosOutcome : Type :=
| Resolved (r : AxiosResponse)
| Rejected (e : thrown).

Inductive LogLevel : Type := LError | LWarn | LInfo.

Record LogRecord : Type := { level : LogLevel; msg : string; meta : jsval }.

Record StoredProfile : Type := {
  id : Z;
  profile : UserProfile;
  created_at : string;
  updated_at : string;
}.

Record LogEntry : Type := {
  log_id : Z;
  usage : UsageLog;
  timestamp : string;
}.

(** The remote ML service as the gateway sees it: what it answers to
    [POST /predict] with a given JSON payload, and to [GET /health]. *)
Record MLService : Type := {
  post_predict : jsval -> AxiosOutcome;
  get_health : AxiosOutcome;
}.

Record World : Type := {
  ml : MLService;
  ml_requests : list (string * jsval);   (** requests sent so far, oldest first *)
  logged : list LogRecord;               (** logger output, oldest first *)
  now : string;                          (** [new Date().toISOString()] *)
  profiles : gmap Z StoredProfile;
  nextId : Z;
  usageLogs : list LogEntry;
  nextLogId : Z;
}.

Definition with_logged (l : list LogRecord) (w : World) : World :=
  {| ml := ml w; ml_requests := ml_requests w; logged := l; now := now w;
     profiles := profiles w; nextId := nextId w;
     usageLogs := usageLogs w; nextLogId := nextLogId w |}.

Definition with_ml_requests (r : list (string * jsval)) (w : World) : World :=
  {| ml := ml w; ml_requests := r; logged := logged w; now := now w;
     profiles := profiles w; nextId := nextId w;
     usageLogs := usageLogs w; nextLogId := nextLogId w |}.

Definition with_profiles (m : gmap Z StoredProfile) (n : Z) (w : World) : World :=
  {| ml := ml w; ml_requests := ml_requests w; logged := logged w; now := now w;
     profiles := m; nextId := n;
     usageLogs := usageLogs w; nextLogId := nextLogId w |}.

Definition with_usageLogs (l : list LogEntry) (n : Z) (w : World) : World :=
  {| ml := ml w; ml_requests := ml_requests w; logged := logged w; now := now w;
     profiles := profiles w; nextId := nextId w;
     usageLogs := l; nextLogId := n |}.

(** ** A monad for handlers: world passing with exceptions *)

Inductive Completion (A : Type) : Type :=
| Return (a : A)
| Throw (e : thrown).
Arguments Return {A} a.
Arguments Throw {A} e.

Definition M (A : Type) : Type := World -> Completion A * World.

#[global] Instance M_ret : MRet M := fun A a w => (Return a, w).

#[global] Instance M_bind : MBind M := fun A B f m w =>
  match m w with
  | (Return a, w') => f a w'
  | (Throw e, w') => (Throw e, w')
  end.

Definition throw {A : Type} (e : thrown) : M A := fun w => (Throw e, w).

Definition try_catch {A : Type} (body : M A) (handler : thrown -> M A) : M A :=
  fun w =>
    match body w with
    | (Return a, w') => (Return a, w')
    | (Throw e, w') => handler e w'
    end.

Definition get_world : M World := fun w => (Return w, w).

Definition update_world (f : World -> World) : M unit := fun w => (Return tt, f w).

Definition result {A : Type} (r : Completion A * World) : Completion A := fst r.
Definition world_after {A : Type} (r : Completion A * World) : World := snd r.

(** ** utils/logger *)

Module logger.
Definition write (l : LogLevel) (m : string) (meta : jsval) : M unit :=
  update_world (fun w => with_logged (logged w ++ [{| level := l; msg := m; meta := meta |}]) w).
Definition info := write LInfo.
Definition warn := write LWarn.
Definition error := write LError.
End logger.

(** ** services/ml.service.ts *)

Module MLServiceClient.

(** [this.client.post(path, payload)] *)
Definition client_post (path : string) (payload : jsval) : M AxiosResponse :=
  fun w =>
    let w' := with_ml_requests (ml_requests w ++ [(path, payload)]) w in
    match post_predict (ml w) payload with
    | Resolved r => (Return r, w')
    | Rejected e => (Throw e, w')
    end.

(** [this.client.get('/health')] *)
Definition client_get_health : M AxiosResponse :=
  fun w =>
    let w' := with_ml_requests (ml_requests w ++ [("/health", JNull)]) w in
    match get_health (ml w) with
    | Resolved r => (Return r, w')
    | Rejected e => (Throw e, w')
    end.

Definition predict (profile : UserProfile) : M jsval :=
  try_catch
    (logger.info "Sending prediction request to ML Service"
       (JObj [("profile", UserProfile_json profile)]) ;;
     response ← client_post "/predict" (UserProfile_json profile) ;
     logger.info "Received prediction response from ML Service"
       (JObj [("data", data response)]) ;;
     mret (data response))
    (fun error =>
       if isAxiosError error then
         logger.error "ML Service communication error" (thrown_json error) ;;
         throw (ErrorObj ("ML Service error: " +:+ error_message error))
       else
         logger.error "Unexpected error during ML Service communication"
           (JObj [("error", thrown_json error)]) ;;
         throw (ErrorObj "Unexpected error communicating with ML Service")).

Definition healthCheck : M bool :=
  try_catch
    (response ← client_get_health ;
     mret (status response =? 200)%Z)
    (fun error =>
       logger.error "ML Service health check failed"
         (JObj [("error", thrown_json error)]) ;;
       mret false).

End MLServiceClient.

(** ** JavaScript conversions used by the handlers *)

Definition digit_of (c : ascii) : option Z :=
  let n := Z.of_nat (nat_of_ascii c) in
  if (48 <=? n)%Z && (n <=? 57)%Z then Some (n - 48) else None.

Fixpoint span_digits (cs : list ascii) : list Z * list ascii :=
  match cs with
  | [] => ([], [])
  | c :: rest =>
      match digit_of c with
      | Some d => let '(ds, tl) := span_digits rest in (d :: ds, tl)
      | None => ([], cs)
      end
  end.

Definition digits_value (ds : list Z) : Z :=
  fold_left (fun acc d => 10 * acc + d) ds 0.

(** An optional leading sign: whether it is a minus, and what follows. *)
Definition take_sign (cs : list ascii) : bool * list ascii :=
  match cs with
  | "-"%char :: rest => (true, rest)
  | "+"%char :: rest => (false, rest)
  | _ => (false, cs)
  end.

(** [x / y] rounded to the nearest integer, a tie going to the even one
    (for [0 <= x] and [0 < y]). *)
Definition round_half_even (x y : Z) : Z :=
  let q := (x / y)%Z in
  let r := (x mod y)%Z in
  if (2 * r <? y)%Z then q
  else if (y <? 2 * r)%Z then q + 1
  else if Z.even q then q else q + 1.

(** The double nearest to the rational [n / d] ([0 <= n], [0 < d]), ties to
    even: 53 significant bits, the unit in the last place never below
    2^-1074 (so the smallest magnitudes round to subnormals or to zero). *)
Definition nearest_double_pos (n d : Z) : Q :=
  if (n =? 0)%Z then 0%Q
  else
    let e0 := (Z.log2 n - Z.log2 d)%Z in
    let below := if (0 <=? e0)%Z then (n <? d * 2 ^ e0)%Z
                 else (n * 2 ^ (- e0) <? d)%Z in
    let e := if below then (e0 - 1)%Z else e0 in      (* floor (log2 (n / d)) *)
    let p := Z.max (e - 52) (-1074) in                (* exponent of the last place *)
    if (0 <=? p)%Z then inject_Z (round_half_even n (d * 2 ^ p) * 2 ^ p)
    else Qmake (round_half_even (n * 2 ^ (- p)) d) (Z.to_pos (2 ^ (- p))).

(** The Number value for a rational. *)
Definition nearest_double (q : Q) : Q :=
  let v := nearest_double_pos (Z.abs (Qnum q)) (Zpos (Qden q)) in
  if (Qnum q <? 0)%Z then Qopp v else v.

(** The Number value for an integer: itself up to 53 bits, beyond that the
    nearest multiple of the power of two that leaves 53 bits, ties to even. *)
Definition nearest_double_Z (n : Z) : Z :=
  let a := Z.abs n in
  let bits := (Z.log2 a + 1)%Z in
  let r := if (bits <=? 53)%Z then a
           else (round_half_even a (2 ^ (bits - 53)) * 2 ^ (bits - 53))%Z in
  (Z.sgn n * r)%Z.

(** White space that [parseInt] skips, among the code units below 256. *)
Definition is_space (c : ascii) : bool :=
  let n := nat_of_ascii c in
  (Nat.leb 9 n && Nat.leb n 13) || Nat.eqb n 32 || Nat.eqb n 160.

Fixpoint skip_spaces (cs : list ascii) : list ascii :=
  match cs with
  | c :: rest => if is_space c then skip_spaces rest else cs
  | [] => []
  end.

(** [parseInt(s, 10)]; [None] is NaN.  Leading white space, an optional
    sign, then the longest run of decimal digits; the rest is ignored.  The
    result is the Number value for the integer the digits spell. *)
Definition parseInt (s : string) : option Z :=
  let '(neg, rest) := take_sign (skip_spaces (list_ascii_of_string s)) in
  match fst (span_digits rest) with
  | [] => None
  | ds => Some (nearest_double_Z (if neg then - digits_value ds else digits_value ds))
  end.

(** Truthiness of a JSON value. *)
Definition truthy (v : jsval) : bool :=
  match v with
  | JNull => false
  | JBool b => b
  | JNum q => negb (Qeq_bool q 0)
  | JStr s => negb (String.eqb s "")
  | JArr _ | JObj _ => true
  end.

(** ** express-validator: the checks the rule chains are built from

    The library is a dependency of the gateway, not part of it.  Its
    standard validators work on strings: every value is first stringified,
    an array is checked item by item, and a chain without [bail] runs all
    its checks and keeps every failure. *)

Module ExpressValidator.

(** A decimal numeral as the two regular expressions of validator.js see
    it: an optional sign, digits, an optional dot with more digits, and
    an optional exponent (e or E, an optional sign, one digit or more). *)
Record numeral : Type := {
  negative : bool;
  int_part : list Z;
  has_dot : bool;
  frac_part : list Z;
  exponent : option Z;
}.

Definition is_e (c : ascii) : bool :=
  Ascii.eqb c "e"%char || Ascii.eqb c "E"%char.

Definition lex_numeral (s : string) : option numeral :=
  let '(neg, r0) := take_sign (list_ascii_of_string s) in
  let '(ip, r1) := span_digits r0 in
  let '(dot, fp, r2) :=
    match r1 with
    | "."%char :: r => let '(fp, r') := span_digits r in (true, fp, r')
    | _ => (false, [], r1)
    end in
  match r2 with
  | [] => Some {| negative := neg; int_part := ip; has_dot := dot;
                  frac_part := fp; exponent := None |}
  | c :: r3 =>
      if is_e c then
        let '(eneg, r4) := take_sign r3 in
        match span_digits r4 with
        | (d :: ds, []) =>
            let e := digits_value (d :: ds) in
            Some {| negative := neg; int_part := ip; has_dot := dot;
                    frac_part := fp;
                    exponent := Some (if eneg then - e else e) |}
        | _ => None
        end
      else None
  end.

(** [/^[+-]?([0-9]*[.])?[0-9]+$/] on a lexed numeral. *)
Definition numeric_shape (l : numeral) : bool :=
  match exponent l with
  | Some _ => false
  | None =>
      if has_dot l then negb (Nat.eqb (length (frac_part l)) 0)
      else negb (Nat.eqb (length (int_part l)) 0)
  end.

(** [parseFloat] of a lexed numeral: the double nearest to the decimal
    it spells; [None] is NaN. *)
Definition numeral_value (l : numeral) : option Q :=
  match (int_part l ++ frac_part l)%list with
  | [] => None
  | ds =>
      let m := digits_value ds in
      let e := (default 0 (exponent l) - Z.of_nat (length (frac_part l)))%Z in
      let q := if (0 <=? e)%Z then inject_Z (m * 10 ^ e)
               else Qmake m (Z.to_pos (10 ^ (- e))) in
      Some (nearest_double (if negative l then Qopp q else q))
  end.

(** What the validators need to know about a stringified value. *)
Record NumForm : Type := {
  is_numeric : bool;         (** matches the isNumeric expression *)
  is_float : bool;           (** matches the isFloat expression and is not one of the bare forms *)
  float_value : option Q;    (** [parseFloat], [None] for NaN *)
}.

Definition no_form : NumForm :=
  {| is_numeric := false; is_float := false; float_value := None |}.

Definition bare (s : string) : bool :=
  String.eqb s "" || String.eqb s "." || String.eqb s ","
  || String.eqb s "-" || String.eqb s "+".

Definition text_form (s : string) : NumForm :=
  match lex_numeral s with
  | None => no_form
  | Some l => {| is_numeric := numeric_shape l;
                 is_float := negb (bare s);
                 float_value := numeral_value l |}
  end.

(** [String(x)] of a number has no exponent part exactly when [x] is zero
    or its magnitude is at least the double of 1e-6 (which prints as
    0.000001) and below 1e21. *)
Definition js_plain (q : Q) : bool :=
  Qeq_bool q 0
  || (Qle_bool (nearest_double (1 # 1000000)) (Qabs q)
      && negb (Qle_bool (inject_Z (10 ^ 21)) (Qabs q))).

(** The string a value is turned into, kept symbolic where it is the
    rendering of a number or the comma-joined rendering of an array. *)
#[warnings="-register-all"]
Inductive strform : Type :=
| SNumber (q : Q)
| SText (s : string)
| SJoin (parts : list strform).

(** [String(v)]; inside [Array.prototype.join] a [null] item is empty. *)
Fixpoint ToString (v : jsval) : strform :=
  match v with
  | JNull => SText "null"
  | JBool true => SText "true"
  | JBool false => SText "false"
  | JNum q => SNumber q
  | JStr s => SText s
  | JArr items =>
      SJoin (map (fun x => match x with
                           | JNull => SText ""
                           | _ => ToString x
                           end) items)
  | JObj _ => SText "[object Object]"
  end.

(** The library's own [toString]: [undefined] and [null] become [""]. *)
Definition toString (v : option jsval) : strform :=
  match v with
  | None | Some JNull => SText ""
  | Some v => ToString v
  end.

Fixpoint num_form (f : strform) : NumForm :=
  match f with
  | SNumber q => {| is_numeric := js_plain q; is_float := true;
                    float_value := Some q |}
  | SText s => text_form s
  | SJoin [p] => num_form p
  | SJoin _ => no_form        (** empty, or contains a comma *)
  end.

Definition at_least (bound : option Q) (value : option Q) : bool :=
  match bound, value with
  | None, _ => true
  | Some b, Some v => Qle_bool b v
  | Some _, None => false
  end.

Definition at_most (bound : option Q) (value : option Q) : bool :=
  match bound, value with
  | None, _ => true
  | Some b, Some v => Qle_bool v b
  | Some _, None => false
  end.

Definition isNumeric (f : strform) : bool := is_numeric (num_form f).

Definition isFloat (min max : option Q) (f : strform) : bool :=
  is_float (num_form f)
  && at_least min (float_value (num_form f))
  && at_most max (float_value (num_form f)).

Inductive Validator : Type :=
| Exists
| IsNumeric
| IsFloat (min max : option Q).

(** [body(path)] followed by its checks, each with its [withMessage]. *)
Record ValidationChain : Type := {
  path : string;
  checks : list (Validator * string);
}.

Record ValidationError : Type := {
  err_path : string;
  err_msg : string;
  err_value : option jsval;
}.

Definition ValidationError_json (e : ValidationError) : jsval :=
  obj [("type", Some (JStr "field"));
       ("value", err_value e);
       ("msg", Some (JStr (err_msg e)));
       ("path", Some (JStr (err_path e)));
       ("location", Some (JStr "body"))].

(** The values a standard validator is applied to. *)
Definition items_of (v : option jsval) : list (option jsval) :=
  match v with
  | Some (JArr items) => Some <$> items
  | _ => [v]
  end.

Definition standard (test : strform -> bool) (p m : string) (v : option jsval)
  : list ValidationError :=
  flat_map (fun x => if test (toString x) then []
                     else [{| err_path := p; err_msg := m; err_value := x |}])
           (items_of v).

Definition run_check (p : string) (v : option jsval) (c : Validator * string)
  : list ValidationError :=
  match fst c with
  | Exists =>
      match v with
      | Some _ => []
      | None => [{| err_path := p; err_msg := snd c; err_value := v |}]
      end
  | IsNumeric => standard isNumeric p (snd c) v
  | IsFloat lo hi => standard (isFloat lo hi) p (snd c) v
  end.

(** [chain.run(req)] on the request body. *)
Definition run (body : jsval) (chain : ValidationChain) : list ValidationError :=
  flat_map (run_check (path chain) (prop (path chain) body)) (checks chain).

(** [validationResult(req).array()] once every chain has run. *)
Definition validationResult (chains : list ValidationChain) (body : jsval)
  : list ValidationError :=
  flat_map (run body) chains.

End ExpressValidator.

Import ExpressValidator.

(** ** validators/profile.validator.ts *)

Definition profileValidationRules : list ValidationChain :=
  [ {| path := "income";
       checks := [(Exists, "Income is required");
                  (IsNumeric, "Income must be a number");
                  (IsFloat (Some 0%Q) None, "Income must be non-negative")] |};
    {| path := "spending_score";
       checks := [(Exists, "Spending score is required");
                  (IsNumeric, "Spending score must be a number");
                  (IsFloat (Some 0%Q) (Some (inject_Z 100)),
                   "Spending score must be between 0 and 100")] |};
    {| path := "saving_frequency";
       checks := [(Exists, "Saving frequency is required");
                  (IsNumeric, "Saving frequency must be a number");
                  (IsFloat (Some 0%Q) (Some (inject_Z 10)),
                   "Saving frequency must be between 0 and 10")] |};
    {| path := "loan_behavior";
       checks := [(Exists, "Loan behavior is required");
                  (IsNumeric, "Loan behavior must be a number");
                  (IsFloat (Some 0%Q) (Some (inject_Z 5)),
                   "Loan behavior must be between 0 and 5")] |} ].

(** ** Express: requests, what a handler does, routes *)

Record Request : Type := {
  method : string;
  req_path : string;
  body : jsval;                      (** [req.body] after [express.json()] *)
  params_id : string;                (** [req.params.id] *)
  query_user_id : option string;     (** [req.query.user_id] *)
}.

(** How a handler hands over: it sends a response, or it calls [next]. *)
Inductive HandlerResult : Type :=
| Responded (status : Z) (payload : jsval)    (** [res.status(s).json(p)] *)
| Next                                        (** [next()] *)
| NextErr (e : thrown).                       (** [next(error)] *)

Definition Handler : Type := Request -> M HandlerResult.

(** [router.METHOD(path, h1, h2, ...)]: a handler runs only when the one
    before it called [next()]. *)
Fixpoint route (handlers : list Handler) (req : Request) : M HandlerResult :=
  match handlers with
  | [] => mret Next
  | h :: rest =>
      r ← h req ;
      match r with
      | Next => route rest req
      | _ => mret r
      end
  end.

Definition sent_status (r : Completion HandlerResult) : option Z :=
  match r with
  | Return (Responded s _) => Some s
  | _ => None
  end.

Definition sent_payload (r : Completion HandlerResult) : option jsval :=
  match r with
  | Return (Responded _ p) => Some p
  | _ => None
  end.

(** ** middleware/validation.middleware.ts *)

Definition validate (validations : list ValidationChain) : Handler := fun req =>
  let errors := validationResult validations (body req) in
  match errors with
  | [] => mret Next
  | _ =>
      logger.warn "Request validation failed"
        (JObj [("method", JStr (method req));
               ("path", JStr (req_path req));
               ("errors", JArr (ValidationError_json <$> errors))]) ;;
      mret (Responded HTTP_STATUS.BAD_REQUEST
              (JObj [("success", JBool false);
                     ("message", JStr ERROR_MESSAGES.VALIDATION_ERROR);
                     ("errors", JArr (ValidationError_json <$> errors))]))
  end.

(** ** controllers/recommendation.controller.ts *)

(** The object literal both controllers build from [req.body]. *)
Definition profile_of (b : jsval) : UserProfile :=
  {| income := prop "income" b;
     spending_score := prop "spending_score" b;
     saving_frequency := prop "saving_frequency" b;
     loan_behavior := prop "loan_behavior" b |}.

Definition getRecommendation : Handler := fun req =>
  try_catch
    (let profile := profile_of (body req) in
     logger.info "Requesting recommendation from ML Service"
       (JObj [("profile", UserProfile_json profile)]) ;;
     recommendation ← MLServiceClient.predict profile ;
     logger.info "Recommendation received successfully"
       (JObj [("recommendation", recommendation)]) ;;
     mret (Responded HTTP_STATUS.OK
             (JObj [("success", JBool true);
                    ("data", recommendation)])))
    (fun error =>
       logger.error "Error getting recommendation"
         (JObj [("error", thrown_json error)]) ;;
       if instanceof_Error error then
         mret (Responded HTTP_STATUS.BAD_GATEWAY
                 (JObj [("success", JBool false);
                        ("message", JStr ERROR_MESSAGES.ML_SERVICE_ERROR);
                        ("error", JStr (error_message error))]))
       else
         mret (NextErr error)).

(** ** controllers/profile.controller.ts *)

Definition StoredProfile_json (p : StoredProfile) : jsval :=
  obj [("id", Some (JInt (id p)));
       ("income", income (profile p));
       ("spending_score", spending_score (profile p));
       ("saving_frequency", saving_frequency (profile p));
       ("loan_behavior", loan_behavior (profile p));
       ("created_at", Some (JStr (created_at p)));
       ("updated_at", Some (JStr (updated_at p)))].

Definition createProfile : Handler := fun req =>
  try_catch
    (let profile := profile_of (body req) in
     w ← get_world ;
     let id := nextId w in
     let timestamp := now w in
     let storedProfile :=
       {| id := id; profile := profile;
          created_at := timestamp; updated_at := timestamp |} in
     update_world (fun w => with_profiles (<[id := storedProfile]> (profiles w))
                                          (nextId w + 1) w) ;;
     logger.info "Profile created successfully"
       (JObj [("id", JInt id); ("profile", UserProfile_json profile)]) ;;
     mret (Responded HTTP_STATUS.CREATED
             (JObj [("success", JBool true);
                    ("message", JStr "Profile created successfully");
                    ("data", StoredProfile_json storedProfile)])))
    (fun error => mret (NextErr error)).

Definition getProfile : Handler := fun req =>
  try_catch
    (match parseInt (params_id req) with
     | None =>
         mret (Responded HTTP_STATUS.BAD_REQUEST
                 (JObj [("success", JBool false);
                        ("message", JStr "Invalid user ID")]))
     | Some id =>
         w ← get_world ;
         match profiles w !! id with
         | None =>
             mret (Responded HTTP_STATUS.NOT_FOUND
                     (JObj [("success", JBool false);
                            ("message", JStr "User profile not found")]))
         | Some profile =>
             logger.info "Profile retrieved successfully" (JObj [("id", JInt id)]) ;;
             mret (Responded HTTP_STATUS.OK
                     (JObj [("success", JBool true);
                            ("data", StoredProfile_json profile)]))
         end
     end)
    (fun error => mret (NextErr error)).

(** ** controllers/usage.controller.ts *)

Definition LogEntry_json (e : LogEntry) : jsval :=
  obj [("id", Some (JInt (log_id e)));
       ("user_id", user_id (usage e));
       ("action", action (usage e));
       ("metadata", Some (metadata (usage e)));
       ("timestamp", Some (JStr (timestamp e)))].

Definition logUsage : Handler := fun req =>
  try_catch
    (let usageLog :=
       {| user_id := prop "user_id" (body req);
          action := prop "action" (body req);
          metadata := match prop "metadata" (body req) with
                      | Some m => if truthy m then m else JObj []
                      | None => JObj []
                      end |} in
     w ← get_world ;
     let logEntry :=
       {| log_id := nextLogId w; usage := usageLog; timestamp := now w |} in
     update_world (fun w => with_usageLogs (usageLogs w ++ [logEntry])
                                           (nextLogId w + 1) w) ;;
     logger.info "Usage event logged" (LogEntry_json logEntry) ;;
     mret (Responded HTTP_STATUS.CREATED
             (JObj [("success", JBool true);
                    ("message", JStr "Usage event logged successfully");
                    ("data", LogEntry_json logEntry)])))
    (fun error => mret (NextErr error)).

(** [log.user_id === userId] *)
Definition same_user (userId : Z) (log : LogEntry) : bool :=
  match user_id (usage log) with
  | Some v => strict_eq_num v userId
  | None => false
  end.

(** [req.query.user_id ? parseInt(req.query.user_id, 10) : null], where an
    empty string is falsy; [None] stands for both [null] and NaN. *)
Definition userId_of (q : option string) : option Z :=
  match q with
  | Some s => if String.eqb s "" then None else parseInt s
  | None => None
  end.

(** The list the handler answers with. *)
Definition selected_logs (userId : option Z) (logs : list LogEntry) : list LogEntry :=
  match userId with
  | Some n => if (n =? 0)%Z then logs else List.filter (same_user n) logs
  | None => logs
  end.

Definition getUsageLogs : Handler := fun req =>
  try_catch
    (let userId := userId_of (query_user_id req) in
     w ← get_world ;
     let logs := selected_logs userId (usageLogs w) in
     mret (Responded HTTP_STATUS.OK
             (JObj [("success", JBool true);
                    ("data", JArr (LogEntry_json <$> logs))])))
    (fun error => mret (NextErr error)).

(** ** routes *)

Module routes.

(** [router.get('/health', ...)] *)
Definition health : Handler := fun req =>
  w ← get_world ;
  mret (Responded 200
          (JObj [("success", JBool true);
                 ("message", JStr "Backend service is healthy");
                 ("timestamp", JStr (now w));
                 ("service", JStr "smartbank-backend")])).

(** [POST /api/recommend] *)
Definition recommendation : Handler :=
  route [validate profileValidationRules; getRecommendation].

(** [POST /api/profile] *)
Definition profile_post : Handler :=
  route [validate profileValidationRules; createProfile].

(** [GET /api/user/:id] *)
Definition profile_get : Handler := route [getProfile].

(** [GET /api/usage] *)
Definition usage_get : Handler := route [getUsageLogs].

End routes.

(** ** The inference service behind [POST /predict] *)

(** Modelled from the spec: the inference pipeline (the Python service; its
    code is not part of the gateway) is a function of the loaded
    ModelBundle and the profile it is sent, "total given a ready bundle,
    else fails with a not ready condition".  Over HTTP the failure is a
    service-unavailable answer, which axios turns into a rejection. *)
Definition not_ready : thrown :=
  AxiosErr "Request failed with status code 503"
           (Some (503, JObj [("detail", JStr "Models not loaded")])).

Section InferenceService.

Variable ModelBundle : Type.

(** Modelled from the spec: [predict(profile, bundle)] of the inference
    pipeline, a pure function that never changes the bundle. *)
Variable infer : ModelBundle -> jsval -> jsval.

(** Modelled from the spec: a serving process holds a fully loaded bundle
    or none; its health answer tells which. *)
Definition serving (loaded : option ModelBundle) : MLService :=
  {| post_predict := fun payload =>
       match loaded with
       | Some bundle => Resolved {| status := 200; data := infer bundle payload |}
       | None => Rejected not_ready
       end;
     get_health :=
       Resolved {| status := 200;
                   data := JObj [("status", JStr "ok");
                                 ("service", JStr "ml-service");
                                 ("models_loaded",
                                  JBool (bool_decide (is_Some loaded)))] |} |}.

End InferenceService.

(** ** Sample data *)

(** A service that rejects every call with [e]. *)
Definition failing (e : thrown) : MLService :=
  {| post_predict := fun _ => Rejected e; get_health := Rejected e |}.

(** A service that answers every prediction with the body [r]. *)
Definition answering (r : jsval) : MLService :=
  {| post_predict := fun _ => Resolved {| status := 200; data := r |};
     get_health := Resolved {| status := 200; data := JObj [("status", JStr "ok")] |} |}.

(** The gateway right after start-up. *)
Definition fresh (service : MLService) : World :=
  {| ml := service; ml_requests := []; logged := [];
     now := "2025-11-27T15:00:00.000Z";
     profiles := ∅; nextId := 1;
     usageLogs := []; nextLogId := 1 |}.

(** The request body of the README. *)
Definition sample_body : jsval :=
  JObj [("age", JInt 30);
        ("income", JInt 75000);
        ("employment_status", JStr "employed");
        ("credit_score", JInt 720);
        ("existing_products", JArr [JStr "basic_checking"]);
        ("monthly_spending", JInt 2500);
        ("savings_balance", JInt 15000);
        ("loan_amount", JInt 0);
        ("digital_engagement", JInt 8);
        ("spending_score", JInt 65);
        ("saving_frequency", JInt 7);
        ("loan_behavior", JInt 2)].

Definition post (b : jsval) : Request :=
  {| method := "POST"; req_path := "/"; body := b;
     params_id := ""; query_user_id := None |}.

Definition get (i : string) (q : option string) : Request :=
  {| method := "GET"; req_path := "/"; body := JObj [];
     params_id := i; query_user_id := q |}.

(** A body of the declared [RecommendationResponse] shape. *)
Definition declared_recommendation : jsval :=
  JObj [("recommended_account", JStr "Basic Checking Account");
        ("recommended_savings", JStr "Standard Savings Account");
        ("recommended_loan", JStr "Auto Loan");
        ("recommended_digital_service", JStr "Premium Digital Banking");
        ("cluster_segment", JInt 1)].

(** Sample worlds: the ML service not ready, timing out, down, answering
    with the declared shape, and the modelled service with and without a
    bundle (the bundle is a unit, inference echoes the payload). *)
Definition not_ready_world : World := fresh (failing not_ready).
Definition timeout_world : World :=
  fresh (failing (AxiosErr "timeout of 10000ms exceeded" None)).
Definition down_world : World := fresh (failing (AxiosErr "connect ECONNREFUSED" None)).
Definition declared_world : World := fresh (answering declared_recommendation).
Definition loaded_world : World :=
  fresh (serving unit (fun _ payload => payload) (Some tt)).
Definition unloaded_world : World :=
  fresh (serving unit (fun _ payload => payload) None).

(** ** What the specification says the response exposes *)

Definition categories : list string :=
  ["account"; "savings"; "loan"; "digital_service"].

Definition maps_categories (m : option jsval) : bool :=
  match m with
  | Some o => forallb (fun c => bool_decide (is_Some (prop c o))) categories
  | None => false
  end.

(** A cluster id, the financial health score, a label per category and a
    confidence per category. *)
Definition exposes_result (r : jsval) : bool :=
  bool_decide (is_Some (prop "cluster" r))
  && bool_decide (is_Some (prop "financial_health_score" r))
  && maps_categories (prop "recommendations" r)
  && maps_categories (prop "confidence_scores" r).

Definition is_mapping (v : jsval) : bool :=
  match v with
  | JObj _ => true
  | _ => false
  end.

(** The message of the Error that [predict] throws for a rejection. *)
Definition predict_failure (e : thrown) : string :=
  if isAxiosError e then "ML Service error: " +:+ error_message e
  else "Unexpected error communicating with ML Service".

(** The members of the declared [UserProfile] interface. *)
Definition UserProfile_members : list string :=
  ["income"; "spending_score"; "saving_frequency"; "loan_behavior"].

(** The raw input fields of the data model that the interface leaves out. *)
Definition undeclared_fields : list string :=
  ["age"; "credit_score"; "monthly_spending"; "savings_balance";
   "loan_amount"; "digital_engagement"; "employment_status";
   "existing_products"].

Definition member (k : string) (ks : list string) : bool :=
  existsb (String.eqb k) ks.

(** What the gateway answers when the ML call was rejected with [e]. *)
Definition bad_gateway (e : thrown) : HandlerResult :=
  Responded HTTP_STATUS.BAD_GATEWAY
    (JObj [("success", JBool false);
           ("message", JStr ERROR_MESSAGES.ML_SERVICE_ERROR);
           ("error", JStr (predict_failure e))]).

(** What the gateway answers when the ML call resolved with body [d]. *)
Definition forwarded (d : jsval) : HandlerResult :=
  Responded HTTP_STATUS.OK (JObj [("success", JBool true); ("data", d)]).

(** A usage log holding one id beyond 2^53 as a number and as a string, and
    a small id in between. *)
Definition sample_log : list LogEntry :=
  [ {| log_id := 1;
       usage := {| user_id := Some (JInt 9007199254740992);
                   action := Some (JStr "view_dashboard"); metadata := JObj [] |};
       timestamp := "2025-11-27T15:00:00.000Z" |};
    {| log_id := 2;
       usage := {| user_id := Some (JInt 5);
                   action := Some (JStr "view_dashboard"); metadata := JObj [] |};
       timestamp := "2025-11-27T15:00:01.000Z" |};
    {| log_id := 3;
       usage := {| user_id := Some (JStr "9007199254740992");
                   action := Some (JStr "view_dashboard"); metadata := JObj [] |};
       timestamp := "2025-11-27T15:00:02.000Z" |} ].

Definition logged_world : World := with_usageLogs sample_log 4 declared_world.



(** ** The usage log as the claim reads it *)

(** The entries to return for the [user_id] query parameter [q]: all of
    them when it is absent or parses to 0 or NaN, else those of that user. *)
Definition logs_for_query (q : option string) (logs : list LogEntry) : list LogEntry :=
  match q with
  | None => logs
  | Some s =>
      match parseInt s with
      | None => logs
      | Some n => if (n =? 0)%Z then logs else List.filter (same_user n) logs
      end
  end.

(** ** Histories of the profile store *)

Inductive event : Type :=
| Create (req : Request)      (** a call of [createProfile] *)
| Fetch (req : Request)       (** a call of [getProfile] *)
| Tick (t : string).          (** the clock moves on *)

Definition with_now (t : string) (w : World) : World :=
  {| ml := ml w; ml_requests := ml_requests w; logged := logged w; now := t;
     profiles := profiles w; nextId := nextId w;
     usageLogs := usageLogs w; nextLogId := nextLogId w |}.

Definition with_ml (service : MLService) (w : World) : World :=
  {| ml := service; ml_requests := ml_requests w; logged := logged w; now := now w;
     profiles := profiles w; nextId := nextId w;
     usageLogs := usageLogs w; nextLogId := nextLogId w |}.

Definition step (w : World) (e : event) : World :=
  match e with
  | Create req => world_after (createProfile req w)
  | Fetch req => world_after (getProfile req w)
  | Tick t => with_now t w
  end.

Definition replay (events : list event) (w : World) : World :=
  fold_left step events w.

Definition creations (events : list event) : nat :=
  length (List.filter (fun e => match e with Create _ => true | _ => false end) events).

(** The store after [c] creations. *)
Definition store_inv (c : nat) (w : World) : Prop :=
  nextId w = 1 + Z.of_nat c
  /\ (forall k, is_Some (profiles w !! k) <-> 1 <= k < nextId w)
  /\ (forall k p, profiles w !! k = Some p ->
                  id p = k /\ created_at p = updated_at p).

(** ** What the validation rules accept *)


(** The values checked for a field: the elements of an array, else the
    value itself. *)
Definition items (v : jsval) : list jsval :=
  match v with
  | JArr l => l
  | _ => [v]
  end.




(** A request whose credit score is far below 300. *)
Definition low_credit_body : jsval :=
  JObj [("income", JInt 75000);
        ("spending_score", JInt 65);
        ("saving_frequency", JInt 7);
        ("loan_behavior", JInt 2);
        ("credit_score", JInt 100)].

(** * The rest of the gateway *)

(** ** middleware/error.middleware.ts *)

(** [AppError]: an Error that may carry a status code; [stack] is the trace
    the runtime attached to it. *)
Record AppError : Type := {
  app_message : string;
  statusCode : option Z;
  stack : option string;
}.

Definition errorHandler (NODE_ENV : option string) (err : AppError) : Handler := fun req =>
  let statusCode :=
    match statusCode err with
    | Some c => if (c =? 0)%Z then HTTP_STATUS.INTERNAL_SERVER_ERROR else c
    | None => HTTP_STATUS.INTERNAL_SERVER_ERROR
    end in
  let message :=
    if String.eqb (app_message err) "" then ERROR_MESSAGES.INTERNAL_ERROR
    else app_message err in
  w ← get_world ;
  logger.error "Error occurred"
    (obj [("method", Some (JStr (method req)));
          ("path", Some (JStr (req_path req)));
          ("statusCode", Some (JInt statusCode));
          ("message", Some (JStr message));
          ("stack", JStr <$> stack err);
          ("timestamp", Some (JStr (now w)))]) ;;
  mret (Responded statusCode
          (obj ([("success", Some (JBool false));
                 ("message", Some (JStr message))]
                ++ match NODE_ENV with
                   | Some env => if String.eqb env "development"
                                 then [("stack", JStr <$> stack err)]
                                 else []
                   | None => []
                   end))).

(** The error [notFoundHandler] passes to [next] for a request to
    [originalUrl]; [trace] is the stack of the new Error. *)
Definition notFoundHandler (originalUrl trace : string) : AppError :=
  {| app_message := "Route not found: " +:+ originalUrl;
     statusCode := Some HTTP_STATUS.NOT_FOUND;
     stack := Some trace |}.

(** app.ts, the two last [app.use]: what becomes of a request that no
    route answered. *)
Definition unmatched (NODE_ENV : option string) (originalUrl trace : string) : Handler :=
  errorHandler NODE_ENV (notFoundHandler originalUrl trace).

(** ** validators/profile.validator.ts: the usage rules *)

Module UsageValidator.

Inductive Check : Type :=
| CExists
| CIsInt (min : option Z)
| CIsString
| CNotEmpty
| CIsObject.

Record Chain : Type := {
  field : string;
  optional : bool;
  tests : list (Check * string);
}.

(** The integer a stringified value is, when it matches validator.js's
    [/^[-+]?[0-9]+$/]: the rendering of an integral number below 1e21 in
    absolute value, or a signed run of digits. *)
Fixpoint int_reading (f : strform) : option Z :=
  match f with
  | SNumber q =>
      let z := (Qnum q / Zpos (Qden q))%Z in
      if Qeq_bool q (inject_Z z) && (Z.abs z <? 10 ^ 21)%Z then Some z else None
  | SText s =>
      let '(neg, rest) := take_sign (list_ascii_of_string s) in
      match span_digits rest with
      | (d :: ds, []) =>
          Some (if neg then - digits_value (d :: ds) else digits_value (d :: ds))
      | _ => None
      end
  | SJoin [p] => int_reading p
  | SJoin _ => None
  end.

Definition isInt (min : option Z) (f : strform) : bool :=
  match int_reading f with
  | Some z => match min with Some m => (m <=? z)%Z | None => true end
  | None => false
  end.

(** [isEmpty]: the string has length 0. *)
Fixpoint isEmpty (f : strform) : bool :=
  match f with
  | SNumber _ => false
  | SText s => String.eqb s ""
  | SJoin [] => true
  | SJoin [p] => isEmpty p
  | SJoin _ => false
  end.

Definition failure (p m : string) (v : option jsval) : ValidationError :=
  {| err_path := p; err_msg := m; err_value := v |}.

Definition run_check (p : string) (v : option jsval) (c : Check * string)
  : list ValidationError :=
  match fst c with
  | CExists =>
      match v with
      | Some _ => []
      | None => [failure p (snd c) v]
      end
  | CIsInt min => standard (isInt min) p (snd c) v
  | CIsString =>
      match v with
      | Some (JStr _) => []
      | _ => [failure p (snd c) v]
      end
  | CNotEmpty => standard (fun f => negb (isEmpty f)) p (snd c) v
  | CIsObject =>
      match v with
      | Some (JObj _) => []
      | _ => [failure p (snd c) v]
      end
  end.

(** A chain marked [optional()] is skipped when the field is [undefined]. *)
Definition run (body : jsval) (chain : Chain) : list ValidationError :=
  match prop (field chain) body with
  | None => if optional chain then []
            else flat_map (run_check (field chain) None) (tests chain)
  | v => flat_map (run_check (field chain) v) (tests chain)
  end.

Fixpoint insert_by_checks (c : Chain) (cs : list Chain) : list Chain :=
  match cs with
  | [] => [c]
  | c' :: rest =>
      if (length (tests c) <=? length (tests c'))%nat then c :: c' :: rest
      else c' :: insert_by_checks c rest
  end.

(** The chains run side by side and each hands in its errors when it is
    through: a chain with fewer checks is through earlier, chains with
    equally many keep the order they were given in. *)
Definition finish_order (chains : list Chain) : list Chain :=
  foldr insert_by_checks [] chains.

(** [validationResult(req).array()] once every chain has run. *)
Definition validationResult (chains : list Chain) (body : jsval)
  : list ValidationError :=
  flat_map (run body) (finish_order chains).

End UsageValidator.

Definition usageValidationRules : list UsageValidator.Chain :=
  [ {| UsageValidator.field := "user_id";
       UsageValidator.optional := false;
       UsageValidator.tests :=
         [(UsageValidator.CExists, "User ID is required");
          (UsageValidator.CIsInt (Some 1), "User ID must be a positive integer")] |};
    {| UsageValidator.field := "action";
       UsageValidator.optional := false;
       UsageValidator.tests :=
         [(UsageValidator.CExists, "Action is required");
          (UsageValidator.CIsString, "Action must be a string");
          (UsageValidator.CNotEmpty, "Action cannot be empty")] |};
    {| UsageValidator.field := "metadata";
       UsageValidator.optional := true;
       UsageValidator.tests :=
         [(UsageValidator.CIsObject, "Metadata must be an object")] |} ].

(** The validation middleware over any way of collecting the errors of a
    request body; [validate] is this with the profile chains. *)
Definition validate_by (collect : jsval -> list ValidationError) : Handler := fun req =>
  let errors := collect (body req) in
  match errors with
  | [] => mret Next
  | _ =>
      logger.warn "Request validation failed"
        (JObj [("method", JStr (method req));
               ("path", JStr (req_path req));
               ("errors", JArr (ValidationError_json <$> errors))]) ;;
      mret (Responded HTTP_STATUS.BAD_REQUEST
              (JObj [("success", JBool false);
                     ("message", JStr ERROR_MESSAGES.VALIDATION_ERROR);
                     ("errors", JArr (ValidationError_json <$> errors))]))
  end.

(** routes/usage.routes.ts, [POST /api/usage] *)
Definition usage_post : Handler :=
  route [validate_by (UsageValidator.validationResult usageValidationRules); logUsage].

(** ** Histories of the whole gateway *)

Inductive call : Type :=
| CreateProfile (req : Request)
| GetProfile (req : Request)
| LogUsage (req : Request)
| GetUsageLogs (req : Request)
| GetRecommendation (req : Request)
| Health (req : Request)
| Advance (t : string)                 (** the clock moves on *)
| Redeploy (service : MLService).      (** the ML service changes *)

Definition serve (w : World) (c : call) : World :=
  match c with
  | CreateProfile req => world_after (createProfile req w)
  | GetProfile req => world_after (getProfile req w)
  | LogUsage req => world_after (logUsage req w)
  | GetUsageLogs req => world_after (getUsageLogs req w)
  | GetRecommendation req => world_after (getRecommendation req w)
  | Health req => world_after (routes.health req w)
  | Advance t => with_now t w
  | Redeploy service => with_ml service w
  end.

Definition serve_all (calls : list call) (w : World) : World :=
  fold_left serve calls w.

(** A world as the process starts with: empty stores, counters at 1. *)
Definition started (w : World) : Prop :=
  profiles w = ∅ /\ nextId w = 1 /\ usageLogs w = [] /\ nextLogId w = 1.

Definition profiles_created (calls : list call) : nat :=
  length (List.filter (fun c => match c with CreateProfile _ => true | _ => false end) calls).

Definition usages_logged (calls : list call) : nat :=
  length (List.filter (fun c => match c with LogUsage _ => true | _ => false end) calls).

(** What the stores look like after [p] profiles and [u] usage events. *)
Definition stores_inv (p u : nat) (w : World) : Prop :=
  store_inv p w
  /\ nextLogId w = 1 + Z.of_nat u
  /\ log_id <$> usageLogs w = seqZ 1 (Z.of_nat u).

(** The stored form of the profile in [req], created at [w]. *)
Definition stored_at (req : Request) (w : World) : StoredProfile :=
  {| id := nextId w; profile := profile_of (body req);
     created_at := now w; updated_at := now w |}.

(** The log entry [logUsage] makes of [req] at [w]. *)
Definition entry_at (req : Request) (w : World) : LogEntry :=
  {| log_id := nextLogId w;
     usage := {| user_id := prop "user_id" (body req);
                 action := prop "action" (body req);
                 metadata := match prop "metadata" (body req) with
                             | Some m => if truthy m then m else JObj []
                             | None => JObj []
                             end |};
     timestamp := now w |}.

(** The route handlers of the four controller files and the health route. *)
Definition controllers : list Handler :=
  [createProfile; getProfile; logUsage; getUsageLogs; getRecommendation; routes.health].


(** The world apart from the logger's output. *)
Definition same_state (w w' : World) : Prop :=
  ml w' = ml w /\ ml_requests w' = ml_requests w /\ now w' = now w
  /\ profiles w' = profiles w /\ nextId w' = nextId w
  /\ usageLogs w' = usageLogs w /\ nextLogId w' = nextLogId w.

(** * Properties *)

Create HintDb js discriminated.
#[local] Hint Unfold mbind M_bind mret M_ret try_catch throw get_world update_world
  logger.info logger.warn logger.error logger.write
  MLServiceClient.client_post MLServiceClient.client_get_health
  result world_after : js.

Ltac exec := autounfold with js; cbn.

(** ** The ML-service client *)

Lemma predict_resolved (p : UserProfile) (w : World) (r : AxiosResponse) :
  post_predict (ml w) (UserProfile_json p) = Resolved r ->
  result (MLServiceClient.predict p w) = Return (data r).
Proof.
  intros E. unfold MLServiceClient.predict. exec. rewrite E. reflexivity.
Qed.

Lemma predict_rejected (p : UserProfile) (w : World) (e : thrown) :
  post_predict (ml w) (UserProfile_json p) = Rejected e ->
  result (MLServiceClient.predict p w) = Throw (ErrorObj (predict_failure e)).
Proof.
  intros E. unfold MLServiceClient.predict, predict_failure. exec. rewrite E.
  destruct e; reflexivity.
Qed.

(** [predict] sends one request and touches nothing but the logger. *)
Lemma predict_world (p : UserProfile) (w : World) :
  let w' := world_after (MLServiceClient.predict p w) in
  ml w' = ml w
  /\ ml_requests w' = (ml_requests w ++ [("/predict", UserProfile_json p)])%list
  /\ now w' = now w
  /\ profiles w' = profiles w /\ nextId w' = nextId w
  /\ usageLogs w' = usageLogs w /\ nextLogId w' = nextLogId w.
Proof.
  unfold MLServiceClient.predict. exec.
  destruct (post_predict (ml w) (UserProfile_json p)) as [r|e]; cbn.
  - repeat split.
  - destruct e; cbn; repeat split.
Qed.

(** C10: [predict] hands back the body of the ML service's answer
    unchanged when the call resolves, and throws an Error (never a partial
    or default result) when it rejects; [healthCheck] never throws, and it
    returns true exactly when the health request resolves with status 200. *)
Theorem client_predict_or_throw_health_total (p : UserProfile) (w : World) :
  match post_predict (ml w) (UserProfile_json p) with
  | Resolved r => result (MLServiceClient.predict p w) = Return (data r)
  | Rejected e =>
      exists m, result (MLServiceClient.predict p w) = Throw (ErrorObj m)
  end
  /\ exists b : bool,
       result (MLServiceClient.healthCheck w) = Return b
       /\ (b = true <->
           exists r, get_health (ml w) = Resolved r /\ status r = 200).
Proof.
  split.
  - destruct (post_predict (ml w) (UserProfile_json p)) as [r|e] eqn:E.
    + by apply predict_resolved.
    + eexists. by apply predict_rejected.
  - unfold MLServiceClient.healthCheck. exec.
    destruct (get_health (ml w)) as [r|e] eqn:E; cbn.
    + exists (status r =? 200)%Z. split; [reflexivity|].
      rewrite Z.eqb_eq. split.
      * intros H. exists r. by split.
      * intros (r' & Hr & Hs). by inversion Hr; subst.
    + exists false. split; [reflexivity|].
      split; [discriminate|]. intros (r & Hr & _). discriminate.
Qed.

(** ** The recommendation controller *)

Lemma getRecommendation_resolved (req : Request) (w : World) (r : AxiosResponse) :
  post_predict (ml w) (UserProfile_json (profile_of (body req))) = Resolved r ->
  result (getRecommendation req w) = Return (forwarded (data r)).
Proof.
  intros E. unfold getRecommendation, MLServiceClient.predict. exec.
  rewrite E. reflexivity.
Qed.

Lemma getRecommendation_rejected (req : Request) (w : World) (e : thrown) :
  post_predict (ml w) (UserProfile_json (profile_of (body req))) = Rejected e ->
  result (getRecommendation req w) = Return (bad_gateway e).
Proof.
  intros E. unfold getRecommendation, MLServiceClient.predict, bad_gateway,
    predict_failure. exec.
  rewrite E. destruct e; reflexivity.
Qed.

Lemma getRecommendation_requests (req : Request) (w : World) :
  ml_requests (world_after (getRecommendation req w))
  = (ml_requests w ++ [("/predict", UserProfile_json (profile_of (body req)))])%list.
Proof.
  unfold getRecommendation, MLServiceClient.predict. exec.
  destruct (post_predict (ml w) _) as [r|e]; cbn; [reflexivity|].
  destruct e; reflexivity.
Qed.

(** C1, as the code has it: whenever the ML-service call fails, for the
    not-ready reason or any other, [getRecommendation] answers with
    BAD_GATEWAY (502) and the one generic message; the cause survives only
    in the text of the [error] member. *)
Theorem getRecommendation_failure_is_bad_gateway
    (req : Request) (w : World) (e : thrown) :
  post_predict (ml w) (UserProfile_json (profile_of (body req))) = Rejected e ->
  result (getRecommendation req w)
  = Return (Responded HTTP_STATUS.BAD_GATEWAY
              (JObj [("success", JBool false);
                     ("message", JStr ERROR_MESSAGES.ML_SERVICE_ERROR);
                     ("error", JStr (predict_failure e))])).
Proof. apply getRecommendation_rejected. Qed.

Lemma getRecommendation_failure_is_bad_gateway_witness :
  post_predict (ml not_ready_world)
               (UserProfile_json (profile_of (body (post sample_body))))
  = Rejected not_ready
  /\ result (getRecommendation (post sample_body) not_ready_world)
     = Return (Responded 502
                 (JObj [("success", JBool false);
                        ("message", JStr "ML service communication error");
                        ("error", JStr "ML Service error: Request failed with status code 503")])).
Proof.
  split; [reflexivity|].
  apply (getRecommendation_failure_is_bad_gateway
           (post sample_body) not_ready_world not_ready).
  reflexivity.
Defined.

(** C1 as stated fails: with the ML service not ready the client call
    throws, and the gateway answers 502, not SERVICE_UNAVAILABLE; status
    and message are those of any other ML failure, here a timeout. *)
Lemma not_ready_is_not_service_unavailable :
  (exists m, result (MLServiceClient.predict (profile_of sample_body) not_ready_world)
             = Throw (ErrorObj m))
  /\ sent_status (result (getRecommendation (post sample_body) not_ready_world))
     = Some HTTP_STATUS.BAD_GATEWAY
  /\ sent_status (result (getRecommendation (post sample_body) not_ready_world))
     <> Some HTTP_STATUS.SERVICE_UNAVAILABLE
  /\ sent_status (result (getRecommendation (post sample_body) not_ready_world))
     = sent_status (result (getRecommendation (post sample_body) timeout_world))
  /\ (sent_payload (result (getRecommendation (post sample_body) not_ready_world))
        ≫= prop "message")
     = (sent_payload (result (getRecommendation (post sample_body) timeout_world))
          ≫= prop "message").
Proof.
  split; [eexists; reflexivity|].
  repeat split; try reflexivity. discriminate.
Qed.

(** C2, as the code has it: on success the caller gets status 200 and the
    object with [success: true] and, under [data], the body of the ML
    service's answer unchanged; the response exposes a cluster id, a
    financial health score and the two per-category mappings exactly when
    that body does. *)
Theorem getRecommendation_forwards_body
    (req : Request) (w : World) (r : AxiosResponse) :
  post_predict (ml w) (UserProfile_json (profile_of (body req))) = Resolved r ->
  result (getRecommendation req w)
  = Return (Responded HTTP_STATUS.OK
              (JObj [("success", JBool true); ("data", data r)]))
  /\ (sent_payload (result (getRecommendation req w)) ≫= prop "data") = Some (data r)
  /\ (exposes_result <$> (sent_payload (result (getRecommendation req w)) ≫= prop "data"))
     = Some (exposes_result (data r)).
Proof.
  intros E. rewrite (getRecommendation_resolved _ _ _ E). by repeat split.
Qed.

Lemma getRecommendation_forwards_body_witness :
  post_predict (ml declared_world)
               (UserProfile_json (profile_of (body (post sample_body))))
  = Resolved {| status := 200; data := declared_recommendation |}
  /\ (sent_payload (result (getRecommendation (post sample_body)
                              declared_world))
      ≫= prop "data") = Some declared_recommendation.
Proof.
  split; [reflexivity|].
  apply (getRecommendation_forwards_body (post sample_body)
           declared_world
           {| status := 200; data := declared_recommendation |}).
  reflexivity.
Defined.

(** C2 as stated fails: a successful request whose ML answer has the
    declared [RecommendationResponse] shape yields a response with no
    financial health score and no mapping at all, under [data] or beside it. *)
Lemma declared_response_lacks_score_and_confidence :
  sent_status (result (getRecommendation (post sample_body) declared_world))
  = Some HTTP_STATUS.OK
  /\ keys declared_recommendation = RecommendationResponse_members
  /\ exists payload d,
       sent_payload (result (getRecommendation (post sample_body) declared_world))
       = Some payload
       /\ prop "data" payload = Some d
       /\ keys d = RecommendationResponse_members
       /\ exposes_result d = false
       /\ exposes_result payload = false
       /\ prop "financial_health_score" d = None
       /\ prop "financial_health_score" payload = None
       /\ forallb (fun k => match prop k d with
                            | Some v => negb (is_mapping v)
                            | None => true
                            end) (keys d) = true.
Proof.
  split; [reflexivity|]. split; [reflexivity|].
  eexists. eexists. split; [reflexivity|]. split; [reflexivity|].
  repeat split.
Qed.

(** ** The profile built at the request boundary *)

Lemma member_income_etc (k : string) :
  member k UserProfile_members
  = (String.eqb k "income" || String.eqb k "spending_score"
     || String.eqb k "saving_frequency" || String.eqb k "loan_behavior").
Proof.
  unfold member, UserProfile_members. cbn.
  by rewrite orb_false_r, !orb_assoc.
Qed.

(** C3, as the code has it: the UserProfile built from a request body has
    the four declared members income, spending_score, saving_frequency and
    loan_behavior, each with the value the body has for it, and no other
    member; that object is what is sent to the ML service. *)
Theorem profile_has_exactly_declared_members (req : Request) (w : World) (k : string) :
  prop k (UserProfile_json (profile_of (body req)))
  = (if member k UserProfile_members then prop k (body req) else None)
  /\ ml_requests (world_after (getRecommendation req w))
     = (ml_requests w ++ [("/predict", UserProfile_json (profile_of (body req)))])%list.
Proof.
  split; [|apply getRecommendation_requests].
  rewrite member_income_etc.
  unfold UserProfile_json, profile_of, obj. cbn [income spending_score
    saving_frequency loan_behavior].
  destruct (String.eqb_spec k "income") as [->|Hi];
  [|destruct (String.eqb_spec k "spending_score") as [->|Hs];
    [|destruct (String.eqb_spec k "saving_frequency") as [->|Hf];
      [|destruct (String.eqb_spec k "loan_behavior") as [->|Hl]]]];
  cbn [orb];
  destruct (prop "income" (body req)) as [v1|] eqn:E1;
  destruct (prop "spending_score" (body req)) as [v2|] eqn:E2;
  destruct (prop "saving_frequency" (body req)) as [v3|] eqn:E3;
  destruct (prop "loan_behavior" (body req)) as [v4|] eqn:E4;
  cbn [literal prop assoc];
  repeat match goal with
         | H : ?a <> ?b |- context [String.eqb ?a ?b] =>
             rewrite (proj2 (String.eqb_neq a b) H)
         end;
  cbn; congruence.
Qed.

(** C3 as stated fails: the README's request carries every raw input field
    of the data model, and the profile built from it has none of age,
    credit_score, monthly_spending, savings_balance, loan_amount,
    digital_engagement, employment_status and existing_products. *)
Lemma profile_drops_undeclared_fields :
  keys (UserProfile_json (profile_of (body (post sample_body)))) = UserProfile_members
  /\ forallb (fun k => bool_decide (is_Some (prop k sample_body))) undeclared_fields = true
  /\ forallb (fun k => bool_decide
                         (prop k (UserProfile_json (profile_of (body (post sample_body))))
                          = None))
             undeclared_fields = true
  /\ prop "credit_score" sample_body = Some (JInt 720)
  /\ prop "credit_score" (UserProfile_json (profile_of (body (post sample_body)))) = None
  /\ ml_requests (world_after (getRecommendation (post sample_body) declared_world))
     = [("/predict", UserProfile_json (profile_of (body (post sample_body))))].
Proof.
  repeat split.
Qed.

(** ** Validation comes first *)

Lemma validate_rejects (rules : list ValidationChain) (req : Request) (w : World) :
  validationResult rules (body req) <> [] ->
  validate rules req w
  = (Return (Responded HTTP_STATUS.BAD_REQUEST
               (JObj [("success", JBool false);
                      ("message", JStr ERROR_MESSAGES.VALIDATION_ERROR);
                      ("errors", JArr (ValidationError_json
                                         <$> validationResult rules (body req)))])),
     with_logged
       (logged w ++
        [{| level := LWarn; msg := "Request validation failed";
            meta := JObj [("method", JStr (method req));
                          ("path", JStr (req_path req));
                          ("errors", JArr (ValidationError_json
                                             <$> validationResult rules (body req)))] |}])
       w).
Proof.
  intros H. unfold validate.
  destruct (validationResult rules (body req)) as [|e es]; [done|].
  reflexivity.
Qed.

Lemma validate_accepts (rules : list ValidationChain) (req : Request) (w : World) :
  validationResult rules (body req) = [] ->
  validate rules req w = (Return Next, w).
Proof. intros H. unfold validate. by rewrite H. Qed.

(** C5: a recommendation request that fails validation is answered with
    400, the validation message and the list of errors; the middleware does
    not call [next()], the controller does not run, and no request goes to
    the ML service. *)
Theorem invalid_request_never_reaches_ml (req : Request) (w : World) :
  validationResult profileValidationRules (body req) <> [] ->
  result (validate profileValidationRules req w) <> Return Next
  /\ result (routes.recommendation req w)
     = Return (Responded HTTP_STATUS.BAD_REQUEST
                 (JObj [("success", JBool false);
                        ("message", JStr ERROR_MESSAGES.VALIDATION_ERROR);
                        ("errors",
                         JArr (ValidationError_json
                                 <$> validationResult profileValidationRules (body req)))]))
  /\ ml_requests (world_after (routes.recommendation req w)) = ml_requests w.
Proof.
  intros H. pose proof (validate_rejects _ req w H) as E.
  unfold routes.recommendation, route.
  split; [by rewrite E|].
  unfold mbind at 1 3. unfold M_bind. rewrite E. by split.
Qed.

Lemma invalid_request_never_reaches_ml_witness :
  validationResult profileValidationRules (body (post (JObj [("income", JInt 50000)]))) <> []
  /\ sent_status (result (routes.recommendation (post (JObj [("income", JInt 50000)]))
                            declared_world))
     = Some 400
  /\ ml_requests (world_after (routes.recommendation (post (JObj [("income", JInt 50000)]))
                                 declared_world))
     = [].
Proof.
  assert (H : validationResult profileValidationRules
                (body (post (JObj [("income", JInt 50000)]))) <> [])
    by (vm_compute; discriminate).
  split; [exact H|].
  destruct (invalid_request_never_reaches_ml
              (post (JObj [("income", JInt 50000)]))
              declared_world H) as (_ & E & R).
  split; [by rewrite E | exact R].
Defined.

(** ** The health route *)

(** C6, as the code has it: the gateway's health route answers 200 with a
    fixed object whose only varying member is the timestamp; it sends
    nothing to the ML service and changes nothing, so its answer does not
    depend on whether a ModelBundle is loaded. *)
Theorem health_is_fixed (req : Request) (w : World) :
  routes.health req w
  = (Return (Responded 200
               (JObj [("success", JBool true);
                      ("message", JStr "Backend service is healthy");
                      ("timestamp", JStr (now w));
                      ("service", JStr "smartbank-backend")])),
     w)
  /\ forall service : MLService,
       result (routes.health req (with_ml service w)) = result (routes.health req w).
Proof.
  split.
  - unfold routes.health. exec. reflexivity.
  - intros service. unfold routes.health. exec. reflexivity.
Qed.

(** C6 as stated fails: a service with a bundle loaded and one without
    answer their own health request differently, and the gateway's health
    answer is the same for both, and for a service that is down. *)
Lemma health_ignores_bundle :
  get_health (ml loaded_world) <> get_health (ml unloaded_world)
  /\ result (routes.health (get "" None) loaded_world)
     = result (routes.health (get "" None) unloaded_world)
  /\ result (routes.health (get "" None) loaded_world)
     = result (routes.health (get "" None) down_world)
  /\ ml_requests (world_after (routes.health (get "" None) unloaded_world)) = [].
Proof.
  split; [|by repeat split].
  cbn. intros H. inversion H.
Qed.

(** ** The usage log *)

Lemma same_user_spec (n : Z) (e : LogEntry) :
  same_user n e = true
  <-> exists q, user_id (usage e) = Some (JNum q) /\ (q == inject_Z n)%Q.
Proof.
  unfold same_user, strict_eq_num.
  destruct (user_id (usage e)) as [[| | q | | |]|]; split;
    try discriminate; try (by intros (q' & H & _)).
  - intros H. exists q. split; [done|]. by apply Qeq_bool_iff.
  - intros (q' & H & Hq). inversion H; subst. by apply Qeq_bool_iff.
Qed.

Lemma filter_sublist {A : Type} (f : A -> bool) (l : list A) :
  sublist (List.filter f l) l.
Proof.
  induction l as [|a l IH]; cbn; [constructor|].
  destruct (f a); by constructor.
Qed.

Lemma selected_is_logs_for_query (q : option string) (logs : list LogEntry) :
  selected_logs (userId_of q) logs = logs_for_query q logs.
Proof.
  unfold selected_logs, userId_of, logs_for_query.
  destruct q as [s|]; [|done].
  destruct (String.eqb_spec s "") as [->|_]; [done|].
  by destruct (parseInt s).
Qed.

(** C8: [getUsageLogs] answers 200 with, for a [user_id] parameter that
    parses to a nonzero integer n, exactly the logged entries whose user_id
    is the number n, in insertion order, and with the whole log when the
    parameter is absent or parses to 0 or NaN; the store is left as it was. *)
Theorem getUsageLogs_selects (req : Request) (w : World) :
  exists sel : list LogEntry,
    getUsageLogs req w
    = (Return (Responded HTTP_STATUS.OK
                 (JObj [("success", JBool true);
                        ("data", JArr (LogEntry_json <$> sel))])), w)
    /\ sel = logs_for_query (query_user_id req) (usageLogs w)
    /\ sublist sel (usageLogs w)
    /\ (forall s n, query_user_id req = Some s -> parseInt s = Some n -> n <> 0 ->
        sel = List.filter (same_user n) (usageLogs w)
        /\ forall e, e ∈ sel <->
             e ∈ usageLogs w
             /\ exists q, user_id (usage e) = Some (JNum q) /\ (q == inject_Z n)%Q)
    /\ (query_user_id req = None
        \/ (exists s, query_user_id req = Some s
                      /\ (parseInt s = Some 0 \/ parseInt s = None)) ->
        sel = usageLogs w).
Proof.
  exists (logs_for_query (query_user_id req) (usageLogs w)).
  split; [|split; [done|]].
  { unfold getUsageLogs. exec. by rewrite selected_is_logs_for_query. }
  unfold logs_for_query.
  destruct (query_user_id req) as [s|] eqn:Q.
  - destruct (parseInt s) as [n|] eqn:P.
    + destruct (Z.eqb_spec n 0) as [->|Hn].
      * split; [done|]. split; [|done].
        intros s' n' [= <-] P' Hn'. congruence.
      * split; [apply filter_sublist|]. split.
        -- intros s' n' [= <-] P' _.
           assert (n' = n) as -> by congruence.
           split; [done|].
           intros e. rewrite !list_elem_of_In, filter_In, same_user_spec. done.
        -- intros [H|(s' & [= <-] & [H|H])]; congruence.
    + split; [done|]. split; [|done]. intros s' n' [= <-] H. congruence.
  - split; [done|]. split; [|done]. intros s' n' H. discriminate.
Qed.

Lemma getUsageLogs_selects_witness :
  parseInt "9007199254740993" = Some 9007199254740992
  /\ result (getUsageLogs (get "" (Some "9007199254740993")) logged_world)
     = Return (Responded 200
                 (JObj [("success", JBool true);
                        ("data", JArr (LogEntry_json <$> take 1 sample_log))]))
  /\ result (getUsageLogs (get "" (Some " 5 users")) logged_world)
     = Return (Responded 200
                 (JObj [("success", JBool true);
                        ("data", JArr (LogEntry_json <$> take 1 (drop 1 sample_log)))]))
  /\ result (getUsageLogs (get "" (Some "-0")) logged_world)
     = Return (Responded 200
                 (JObj [("success", JBool true);
                        ("data", JArr (LogEntry_json <$> sample_log))])).
Proof.
  split; [reflexivity|]. split; [|split].
  - destruct (getUsageLogs_selects (get "" (Some "9007199254740993")) logged_world)
      as (sel & E & _ & _ & F & _).
    destruct (F "9007199254740993" 9007199254740992 eq_refl eq_refl) as [-> _]; [lia|].
    rewrite E. reflexivity.
  - destruct (getUsageLogs_selects (get "" (Some " 5 users")) logged_world)
      as (sel & E & _ & _ & F & _).
    destruct (F " 5 users" 5 eq_refl eq_refl) as [-> _]; [lia|].
    rewrite E. reflexivity.
  - destruct (getUsageLogs_selects (get "" (Some "-0")) logged_world)
      as (sel & E & _ & _ & _ & G).
    rewrite E, G; [reflexivity|].
    right. exists "-0". split; [reflexivity|]. by left.
Defined.

(** ** The profile store *)

Lemma createProfile_world (req : Request) (w : World) :
  let stored := {| id := nextId w; profile := profile_of (body req);
                   created_at := now w; updated_at := now w |} in
  profiles (world_after (createProfile req w)) = <[nextId w := stored]> (profiles w)
  /\ nextId (world_after (createProfile req w)) = nextId w + 1
  /\ result (createProfile req w)
     = Return (Responded HTTP_STATUS.CREATED
                 (JObj [("success", JBool true);
                        ("message", JStr "Profile created successfully");
                        ("data", StoredProfile_json stored)])).
Proof. by repeat split. Qed.

Lemma getProfile_world (req : Request) (w : World) :
  profiles (world_after (getProfile req w)) = profiles w
  /\ nextId (world_after (getProfile req w)) = nextId w.
Proof.
  unfold getProfile. exec.
  destruct (parseInt (params_id req)) as [i|]; cbn; [|done].
  by destruct (profiles w !! i).
Qed.

Lemma step_store_inv (c : nat) (w : World) (e : event) :
  store_inv c w ->
  store_inv (c + creations [e]) (step w e).
Proof.
  intros (Hn & Hdom & Hid). destruct e as [req|req|t]; cbn [step creations].
  - destruct (createProfile_world req w) as (Hp & Hn' & _).
    unfold store_inv. rewrite Hp, Hn'. cbn. split; [lia|]. split.
    + intros k. rewrite lookup_insert_is_Some, Hdom. split.
      * intros [E|[_ ?]]; lia.
      * intros H. destruct (decide (nextId w = k)); [by left|right]. split; [done|lia].
    + intros k p. rewrite lookup_insert_Some.
      intros [[<- <-]|[_ H]]; [done|by apply Hid].
  - destruct (getProfile_world req w) as (Hp & Hn').
    unfold store_inv. rewrite Hp, Hn'. cbn. rewrite Nat.add_0_r. done.
  - unfold store_inv. cbn. rewrite Nat.add_0_r. done.
Qed.

Lemma creations_cons (e : event) (events : list event) :
  creations (e :: events) = (creations [e] + creations events)%nat.
Proof. unfold creations. cbn. by destruct e. Qed.

Lemma replay_store_inv (events : list event) (c : nat) (w : World) :
  store_inv c w ->
  store_inv (c + creations events) (replay events w).
Proof.
  revert c w. induction events as [|e events IH]; intros c w H.
  - cbn. by rewrite Nat.add_0_r.
  - rewrite creations_cons, Nat.add_assoc.
    change (replay (e :: events) w) with (replay events (step w e)).
    apply IH. by apply step_store_inv.
Qed.

(** C9: starting from the empty store with [nextId = 1], after any history
    of [createProfile] and [getProfile] calls the ids in use are exactly
    1, 2, ... up to the number of creations, every stored profile sits
    under its own id (so no two share one) and has [created_at] equal to
    [updated_at]; the next [createProfile] stores its profile under the
    next id with both timestamps equal; [getProfile] leaves the store and
    the counter as they are. *)
Theorem profile_store_invariant (events : list event) (w0 : World) :
  profiles w0 = ∅ -> nextId w0 = 1 ->
  let w := replay events w0 in
  nextId w = 1 + Z.of_nat (creations events)
  /\ (forall k, is_Some (profiles w !! k) <-> 1 <= k < nextId w)
  /\ (forall k p, profiles w !! k = Some p ->
                  id p = k /\ created_at p = updated_at p)
  /\ (forall k1 k2 p1 p2, profiles w !! k1 = Some p1 -> profiles w !! k2 = Some p2 ->
                          id p1 = id p2 -> k1 = k2)
  /\ (forall req, exists p,
         profiles (world_after (createProfile req w)) !! nextId w = Some p
         /\ id p = nextId w /\ created_at p = updated_at p
         /\ nextId (world_after (createProfile req w)) = nextId w + 1)
  /\ (forall req, profiles (world_after (getProfile req w)) = profiles w
                  /\ nextId (world_after (getProfile req w)) = nextId w).
Proof.
  intros Hp Hn w.
  assert (H0 : store_inv 0 w0).
  { unfold store_inv. rewrite Hp, Hn. split; [done|]. split.
    - intros k. rewrite lookup_empty. split; [by intros [? ?]|lia].
    - intros k p. by rewrite lookup_empty. }
  destruct (replay_store_inv events 0 w0 H0) as (Hc & Hdom & Hid).
  fold w in Hc, Hdom, Hid. cbn in Hc.
  split; [done|]. split; [done|]. split; [done|]. split; [|split].
  - intros k1 k2 p1 p2 H1 H2 E.
    destruct (Hid _ _ H1) as [<- _]. destruct (Hid _ _ H2) as [<- _]. done.
  - intros req. destruct (createProfile_world req w) as (Hp' & Hn' & _).
    eexists. rewrite Hp', Hn'. rewrite lookup_insert_eq. by repeat split.
  - intros req. apply getProfile_world.
Qed.

Lemma profile_store_invariant_witness :
  profiles declared_world = ∅
  /\ nextId declared_world = 1
  /\ nextId (replay [Create (post sample_body); Fetch (get "1" None);
                  Tick "2025-11-27T15:00:01.000Z"; Create (post sample_body)]
                 declared_world) = 3.
Proof.
  split; [reflexivity|]. split; [reflexivity|].
  apply (profile_store_invariant
           [Create (post sample_body); Fetch (get "1" None);
            Tick "2025-11-27T15:00:01.000Z"; Create (post sample_body)]
           declared_world); reflexivity.
Defined.

(** ** The validation rules *)













(** * Further properties *)

(** ** What each controller does to the world *)

Lemma logUsage_world (req : Request) (w : World) :
  let w' := world_after (logUsage req w) in
  usageLogs w' = (usageLogs w ++ [entry_at req w])%list
  /\ nextLogId w' = nextLogId w + 1
  /\ profiles w' = profiles w /\ nextId w' = nextId w
  /\ ml w' = ml w /\ ml_requests w' = ml_requests w
  /\ result (logUsage req w)
     = Return (Responded HTTP_STATUS.CREATED
                 (JObj [("success", JBool true);
                        ("message", JStr "Usage event logged successfully");
                        ("data", LogEntry_json (entry_at req w))])).
Proof. by repeat split. Qed.

Lemma getUsageLogs_world (req : Request) (w : World) :
  world_after (getUsageLogs req w) = w.
Proof. reflexivity. Qed.

Lemma createProfile_frame (req : Request) (w : World) :
  let w' := world_after (createProfile req w) in
  usageLogs w' = usageLogs w /\ nextLogId w' = nextLogId w
  /\ ml w' = ml w /\ ml_requests w' = ml_requests w.
Proof. by repeat split. Qed.

Lemma getProfile_frame (req : Request) (w : World) :
  let w' := world_after (getProfile req w) in
  usageLogs w' = usageLogs w /\ nextLogId w' = nextLogId w
  /\ ml w' = ml w /\ ml_requests w' = ml_requests w.
Proof.
  unfold getProfile. exec.
  destruct (parseInt (params_id req)) as [i|]; cbn; [|done].
  by destruct (profiles w !! i).
Qed.

Lemma getRecommendation_frame (req : Request) (w : World) :
  let w' := world_after (getRecommendation req w) in
  profiles w' = profiles w /\ nextId w' = nextId w
  /\ usageLogs w' = usageLogs w /\ nextLogId w' = nextLogId w
  /\ ml w' = ml w /\ now w' = now w.
Proof.
  unfold getRecommendation, MLServiceClient.predict. exec.
  destruct (post_predict (ml w) _) as [r|e]; cbn; [done|].
  by destruct e.
Qed.

(** The profile store and the usage log after one more call. *)
Lemma serve_profiles (w : World) (c : call) :
  profiles (serve w c)
  = match c with
    | CreateProfile req => <[nextId w := stored_at req w]> (profiles w)
    | _ => profiles w
    end
  /\ nextId (serve w c)
     = match c with
       | CreateProfile req => nextId w + 1
       | _ => nextId w
       end.
Proof.
  destruct c as [req|req|req|req|req|req|t|s]; cbn [serve]; try (by split).
  - apply getProfile_world.
  - destruct (getRecommendation_frame req w) as (-> & -> & _). by split.
Qed.

Lemma serve_usageLogs (w : World) (c : call) :
  usageLogs (serve w c)
  = match c with
    | LogUsage req => (usageLogs w ++ [entry_at req w])%list
    | _ => usageLogs w
    end
  /\ nextLogId (serve w c)
     = match c with
       | LogUsage req => nextLogId w + 1
       | _ => nextLogId w
       end.
Proof.
  destruct c as [req|req|req|req|req|req|t|s]; cbn [serve]; try (by split).
  - destruct (getProfile_frame req w) as (-> & -> & _). by split.
  - destruct (getRecommendation_frame req w) as (_ & _ & -> & -> & _). by split.
Qed.

Lemma profiles_created_cons (c : call) (calls : list call) :
  profiles_created (c :: calls) = (profiles_created [c] + profiles_created calls)%nat.
Proof. unfold profiles_created. cbn. by destruct c. Qed.

Lemma usages_logged_cons (c : call) (calls : list call) :
  usages_logged (c :: calls) = (usages_logged [c] + usages_logged calls)%nat.
Proof. unfold usages_logged. cbn. by destruct c. Qed.

Lemma serve_stores_inv (p u : nat) (w : World) (c : call) :
  stores_inv p u w ->
  stores_inv (p + profiles_created [c]) (u + usages_logged [c]) (serve w c).
Proof.
  intros ((Hn & Hdom & Hid) & Hl & Hids).
  destruct (serve_profiles w c) as [P1 P2]. destruct (serve_usageLogs w c) as [U1 U2].
  unfold stores_inv, store_inv. rewrite P1, P2, U1, U2. clear P1 P2 U1 U2.
  destruct c as [req|req|req|req|req|req|t|s];
    cbn [profiles_created usages_logged List.filter length];
    rewrite ?Nat.add_0_r; try done.
  - (* createProfile *)
    split; [|done]. split; [lia|]. split.
    + intros k. rewrite lookup_insert_is_Some, Hdom. split.
      * intros [E|[_ ?]]; lia.
      * intros H. destruct (decide (nextId w = k)); [by left|right]. split; [done|lia].
    + intros k sp. rewrite lookup_insert_Some.
      intros [[<- <-]|[_ H]]; [done|by apply Hid].
  - (* logUsage *)
    split; [done|]. split; [lia|].
    rewrite fmap_app, Hids. cbn [fmap list_fmap entry_at log_id].
    rewrite Hl. replace (Z.of_nat (u + 1)) with (Z.of_nat u + 1) by lia.
    rewrite seqZ_app by lia. f_equal.
Qed.

Lemma serve_all_stores_inv (calls : list call) (p u : nat) (w : World) :
  stores_inv p u w ->
  stores_inv (p + profiles_created calls) (u + usages_logged calls) (serve_all calls w).
Proof.
  revert p u w. induction calls as [|c calls IH]; intros p u w H.
  - cbn. by rewrite !Nat.add_0_r.
  - rewrite profiles_created_cons, usages_logged_cons, !Nat.add_assoc.
    change (serve_all (c :: calls) w) with (serve_all calls (serve w c)).
    apply IH. by apply serve_stores_inv.
Qed.

Lemma started_stores_inv (w : World) : started w -> stores_inv 0 0 w.
Proof.
  intros (Hp & Hn & Hu & Hl). unfold stores_inv, store_inv.
  rewrite Hp, Hn, Hu, Hl. split; [|by split].
  split; [done|]. split.
  - intros k. rewrite lookup_empty. split; [by intros [? ?]|lia].
  - intros k sp. by rewrite lookup_empty.
Qed.

Lemma serve_keeps_profile (p u : nat) (w : World) (c : call) (k : Z) (sp : StoredProfile) :
  stores_inv p u w ->
  profiles w !! k = Some sp ->
  profiles (serve w c) !! k = Some sp.
Proof.
  intros ((Hn & Hdom & Hid) & _) Hk.
  destruct (serve_profiles w c) as [-> _].
  destruct c; try done.
  rewrite lookup_insert_ne; [done|].
  intros <-. assert (is_Some (profiles w !! nextId w)) as H%Hdom by eauto. lia.
Qed.

Lemma serve_all_keeps_profile (calls : list call) (p u : nat) (w : World)
    (k : Z) (sp : StoredProfile) :
  stores_inv p u w ->
  profiles w !! k = Some sp ->
  profiles (serve_all calls w) !! k = Some sp.
Proof.
  revert p u w. induction calls as [|c calls IH]; intros p u w H Hk; [done|].
  change (serve_all (c :: calls) w) with (serve_all calls (serve w c)).
  eapply IH.
  - by apply serve_stores_inv.
  - by eapply serve_keeps_profile.
Qed.

(** ** Profiles: lookup after insertion, and the three answers of getProfile *)

Lemma getProfile_found (r : Request) (w : World) (k : Z) (sp : StoredProfile) :
  parseInt (params_id r) = Some k ->
  profiles w !! k = Some sp ->
  result (getProfile r w)
  = Return (Responded HTTP_STATUS.OK
              (JObj [("success", JBool true); ("data", StoredProfile_json sp)])).
Proof. intros P L. unfold getProfile. exec. rewrite P. cbn. by rewrite L. Qed.

Lemma getProfile_missing (r : Request) (w : World) (k : Z) :
  parseInt (params_id r) = Some k ->
  profiles w !! k = None ->
  result (getProfile r w)
  = Return (Responded HTTP_STATUS.NOT_FOUND
              (JObj [("success", JBool false);
                     ("message", JStr "User profile not found")])).
Proof. intros P L. unfold getProfile. exec. rewrite P. cbn. by rewrite L. Qed.

Lemma getProfile_invalid (r : Request) (w : World) :
  parseInt (params_id r) = None ->
  result (getProfile r w)
  = Return (Responded HTTP_STATUS.BAD_REQUEST
              (JObj [("success", JBool false); ("message", JStr "Invalid user ID")])).
Proof. intros P. unfold getProfile. exec. by rewrite P. Qed.

(** X1: a profile created at any point of the gateway's life answers to
    [getProfile] under the id it was given, with exactly the data the
    creation responded with, after any further calls of any controller:
    later calls never remove, replace or alter it. *)
Theorem created_profile_stays_retrievable
    (before after : list call) (w0 : World) (req r : Request) :
  started w0 ->
  parseInt (params_id r) = Some (nextId (serve_all before w0)) ->
  result (getProfile r (serve_all after
            (world_after (createProfile req (serve_all before w0)))))
  = Return (Responded HTTP_STATUS.OK
              (JObj [("success", JBool true);
                     ("data", StoredProfile_json (stored_at req (serve_all before w0)))]))
  /\ (sent_payload (result (createProfile req (serve_all before w0))) ≫= prop "data")
     = Some (StoredProfile_json (stored_at req (serve_all before w0))).
Proof.
  intros H0 P. split; [|reflexivity].
  pose proof (serve_all_stores_inv before 0 0 w0 (started_stores_inv _ H0)) as I1.
  set (w1 := serve_all before w0) in *.
  pose proof (serve_stores_inv _ _ w1 (CreateProfile req) I1) as I2.
  apply (getProfile_found r _ (nextId w1)); [done|].
  change (world_after (createProfile req w1)) with (serve w1 (CreateProfile req)).
  eapply serve_all_keeps_profile; [exact I2|].
  destruct (serve_profiles w1 (CreateProfile req)) as [-> _].
  apply lookup_insert_eq.
Qed.

Lemma created_profile_stays_retrievable_witness :
  started declared_world
  /\ parseInt (params_id (get "1" None)) = Some (nextId (serve_all [] declared_world))
  /\ sent_status
       (result (getProfile (get "1" None)
                  (serve_all [LogUsage (post sample_body); CreateProfile (post sample_body);
                              GetRecommendation (post sample_body)]
                     (world_after (createProfile (post sample_body)
                                     (serve_all [] declared_world))))))
     = Some 200.
Proof.
  assert (S : started declared_world) by (by repeat split).
  split; [exact S|]. split; [reflexivity|].
  destruct (created_profile_stays_retrievable []
              [LogUsage (post sample_body); CreateProfile (post sample_body);
               GetRecommendation (post sample_body)]
              declared_world (post sample_body) (get "1" None) S eq_refl) as [E _].
  by rewrite E.
Defined.

(** X2: after any history from start-up in which n profiles were created,
    [getProfile] answers 400 when the id does not parse as an integer, 200
    when it parses to one of 1..n, and 404 otherwise. *)
Theorem getProfile_status_by_id (calls : list call) (w0 : World) (r : Request) :
  started w0 ->
  sent_status (result (getProfile r (serve_all calls w0)))
  = Some (match parseInt (params_id r) with
          | None => HTTP_STATUS.BAD_REQUEST
          | Some k =>
              if (1 <=? k)%Z && (k <=? Z.of_nat (profiles_created calls))%Z
              then HTTP_STATUS.OK else HTTP_STATUS.NOT_FOUND
          end).
Proof.
  intros H0.
  destruct (serve_all_stores_inv calls 0 0 w0 (started_stores_inv _ H0))
    as ((Hn & Hdom & _) & _).
  cbn in Hn. set (w := serve_all calls w0) in *.
  destruct (parseInt (params_id r)) as [k|] eqn:P.
  - destruct (profiles w !! k) as [sp|] eqn:L.
    + rewrite (getProfile_found r w k sp P L).
      assert (1 <= k < nextId w) by (apply Hdom; eauto).
      replace ((1 <=? k)%Z && (k <=? Z.of_nat (profiles_created calls))%Z) with true; [done|].
      symmetry. apply andb_true_iff. split; apply Z.leb_le; lia.
    + rewrite (getProfile_missing r w k P L).
      destruct ((1 <=? k)%Z && (k <=? Z.of_nat (profiles_created calls))%Z) eqn:B; [|done].
      apply andb_true_iff in B as [B1%Z.leb_le B2%Z.leb_le].
      assert (is_Some (profiles w !! k)) as [? ?] by (apply Hdom; lia). congruence.
  - by rewrite (getProfile_invalid r w P).
Qed.

Lemma getProfile_status_by_id_witness :
  started declared_world
  /\ sent_status (result (getProfile (get "2 " None)
                            (serve_all [CreateProfile (post sample_body)] declared_world)))
     = Some 404.
Proof.
  assert (S : started declared_world) by (by repeat split).
  split; [exact S|].
  apply (getProfile_status_by_id [CreateProfile (post sample_body)] declared_world
           (get "2 " None) S).
Defined.

(** X3: [POST /api/profile] stores nothing for a body that fails validation
    (400, store and id counter untouched) and stores the profile under the
    next id for a body that passes (201, counter advanced by one). *)
Theorem profile_post_stores_only_valid (req : Request) (w : World) :
  match validationResult profileValidationRules (body req) with
  | [] =>
      sent_status (result (routes.profile_post req w)) = Some HTTP_STATUS.CREATED
      /\ profiles (world_after (routes.profile_post req w))
         = <[nextId w := stored_at req w]> (profiles w)
      /\ nextId (world_after (routes.profile_post req w)) = nextId w + 1
  | _ :: _ =>
      sent_status (result (routes.profile_post req w)) = Some HTTP_STATUS.BAD_REQUEST
      /\ profiles (world_after (routes.profile_post req w)) = profiles w
      /\ nextId (world_after (routes.profile_post req w)) = nextId w
  end.
Proof.
  unfold routes.profile_post, route.
  destruct (validationResult profileValidationRules (body req)) as [|e es] eqn:V.
  - unfold mbind at 1 3 5. unfold M_bind.
    rewrite (validate_accepts _ req w V). by repeat split.
  - unfold mbind at 1 3 5. unfold M_bind.
    rewrite (validate_rejects _ req w) by (rewrite V; done). by repeat split.
Qed.

(** ** The usage log: append-only, numbered, listed *)

Lemma getUsageLogs_result (r : Request) (w : World) :
  result (getUsageLogs r w)
  = Return (Responded HTTP_STATUS.OK
              (JObj [("success", JBool true);
                     ("data", JArr (LogEntry_json
                                      <$> selected_logs (userId_of (query_user_id r))
                                                        (usageLogs w)))])).
Proof. reflexivity. Qed.

Lemma serve_all_usage_prefix (calls : list call) (w : World) :
  usageLogs w `prefix_of` usageLogs (serve_all calls w).
Proof.
  revert w. induction calls as [|c calls IH]; intros w; [done|].
  change (serve_all (c :: calls) w) with (serve_all calls (serve w c)).
  etrans; [|apply IH].
  destruct (serve_usageLogs w c) as [-> _].
  destruct c; try done. by apply prefix_app_r.
Qed.

(** X4: the usage log is append-only.  An event logged at any point is, after
    any further calls of any controller, still in the unfiltered listing,
    right after the entries that were there before it and with the data the
    logging call responded with. *)
Theorem logged_event_stays_listed (after : list call) (w : World) (req r : Request) :
  query_user_id r = None ->
  (exists later : list LogEntry,
     result (getUsageLogs r (serve_all after (world_after (logUsage req w))))
     = Return (Responded HTTP_STATUS.OK
                 (JObj [("success", JBool true);
                        ("data", JArr (LogEntry_json
                                         <$> (usageLogs w ++ entry_at req w :: later)%list))])))
  /\ (sent_payload (result (logUsage req w)) ≫= prop "data")
     = Some (LogEntry_json (entry_at req w)).
Proof.
  intros Q. split; [|reflexivity].
  destruct (serve_all_usage_prefix after (world_after (logUsage req w))) as [later E].
  exists later. rewrite getUsageLogs_result, Q, E.
  destruct (logUsage_world req w) as (-> & _).
  by rewrite <- app_assoc.
Qed.

Lemma logged_event_stays_listed_witness :
  query_user_id (get "" None) = None
  /\ exists later : list LogEntry,
       result (getUsageLogs (get "" None)
                 (serve_all [LogUsage (post sample_body); CreateProfile (post sample_body)]
                    (world_after (logUsage (post sample_body) declared_world))))
       = Return (Responded 200
                   (JObj [("success", JBool true);
                          ("data", JArr (LogEntry_json
                                           <$> (usageLogs declared_world
                                                ++ entry_at (post sample_body) declared_world
                                                :: later)%list))])).
Proof.
  split; [reflexivity|].
  apply (logged_event_stays_listed
           [LogUsage (post sample_body); CreateProfile (post sample_body)]
           declared_world (post sample_body) (get "" None)).
  reflexivity.
Defined.

(** X5: after any history from start-up, whatever the other controllers
    did in between, the ids of the usage log are 1, 2, ..., n in insertion
    order (n the number of [logUsage] calls), the next log id is n + 1 and
    the next profile id is one more than the number of [createProfile] calls. *)
Theorem counters_follow_the_calls (calls : list call) (w0 : World) :
  started w0 ->
  log_id <$> usageLogs (serve_all calls w0) = seqZ 1 (Z.of_nat (usages_logged calls))
  /\ length (usageLogs (serve_all calls w0)) = usages_logged calls
  /\ nextLogId (serve_all calls w0) = 1 + Z.of_nat (usages_logged calls)
  /\ nextId (serve_all calls w0) = 1 + Z.of_nat (profiles_created calls).
Proof.
  intros H0.
  destruct (serve_all_stores_inv calls 0 0 w0 (started_stores_inv _ H0))
    as ((Hn & _) & Hl & Hids).
  cbn in Hn, Hl, Hids. repeat split; try done.
  apply (f_equal length) in Hids.
  rewrite length_fmap, length_seqZ in Hids. lia.
Qed.

Lemma counters_follow_the_calls_witness :
  started declared_world
  /\ log_id <$> usageLogs (serve_all [LogUsage (post sample_body);
                                      GetRecommendation (post sample_body);
                                      LogUsage (post (JObj []))] declared_world)
     = [1; 2].
Proof.
  assert (S : started declared_world) by (by repeat split).
  split; [exact S|].
  apply (counters_follow_the_calls
           [LogUsage (post sample_body); GetRecommendation (post sample_body);
            LogUsage (post (JObj []))] declared_world S).
Defined.

(** X6: the entry [logUsage] appends always has a [metadata] member, and it
    is never a falsy value: it is the body's metadata when that is truthy,
    and the empty object when the body has none or a falsy one. *)
Theorem logged_metadata_defaults_to_empty_object (req : Request) (w : World) :
  exists e : LogEntry,
    usageLogs (world_after (logUsage req w)) = (usageLogs w ++ [e])%list
    /\ truthy (metadata (usage e)) = true
    /\ prop "metadata" (LogEntry_json e) = Some (metadata (usage e))
    /\ match prop "metadata" (body req) with
       | Some m => if truthy m then metadata (usage e) = m
                   else metadata (usage e) = JObj []
       | None => metadata (usage e) = JObj []
       end.
Proof.
  exists (entry_at req w). split; [reflexivity|].
  unfold LogEntry_json, obj, entry_at. cbn [usage metadata user_id action log_id timestamp].
  destruct (prop "metadata" (body req)) as [m|]; [destruct (truthy m) eqn:T|];
    destruct (prop "user_id" (body req)), (prop "action" (body req)); done.
Qed.

(** X7: the listing for user n right after an event was logged is the
    former listing for n, followed by the new entry exactly when the body's
    [user_id] is the JSON number n; an id sent as a string, or none, is not
    found under n. *)
Theorem listing_by_user_after_logging
    (req r : Request) (w : World) (s : string) (n : Z) :
  query_user_id r = Some s -> parseInt s = Some n -> n <> 0 ->
  result (getUsageLogs r (world_after (logUsage req w)))
  = Return (Responded HTTP_STATUS.OK
              (JObj [("success", JBool true);
                     ("data",
                      JArr (LogEntry_json
                              <$> (List.filter (same_user n) (usageLogs w)
                                   ++ match prop "user_id" (body req) with
                                      | Some (JNum q) =>
                                          if Qeq_bool q (inject_Z n)
                                          then [entry_at req w] else []
                                      | _ => []
                                      end)%list))])).
Proof.
  intros Q P Hn. rewrite getUsageLogs_result, selected_is_logs_for_query, Q.
  destruct (logUsage_world req w) as (-> & _).
  unfold logs_for_query. rewrite P. destruct (Z.eqb_spec n 0) as [|_]; [done|].
  rewrite List.filter_app. cbn [List.filter].
  unfold same_user at 2. cbn [entry_at usage user_id].
  destruct (prop "user_id" (body req)) as [[| | q | | |]|]; cbn; done.
Qed.

Lemma listing_by_user_after_logging_witness :
  query_user_id (get "" (Some "9007199254740993")) = Some "9007199254740993"
  /\ parseInt "9007199254740993" = Some 9007199254740992
  /\ result (getUsageLogs (get "" (Some "9007199254740993"))
               (world_after (logUsage (post (JObj [("user_id", JInt 9007199254740992);
                                                   ("action", JStr "view_dashboard")]))
                               declared_world)))
     = Return (Responded 200
                 (JObj [("success", JBool true);
                        ("data",
                         JArr [LogEntry_json
                                 (entry_at (post (JObj [("user_id", JInt 9007199254740992);
                                                        ("action", JStr "view_dashboard")]))
                                           declared_world)])]))
  /\ result (getUsageLogs (get "" (Some "5"))
               (world_after (logUsage (post (JObj [("user_id", JStr "5");
                                                   ("action", JStr "view_dashboard")]))
                               declared_world)))
     = Return (Responded 200 (JObj [("success", JBool true); ("data", JArr [])])).
Proof.
  split; [reflexivity|]. split; [reflexivity|]. split.
  - apply (listing_by_user_after_logging
             (post (JObj [("user_id", JInt 9007199254740992);
                          ("action", JStr "view_dashboard")]))
             (get "" (Some "9007199254740993")) declared_world
             "9007199254740993" 9007199254740992); [reflexivity|reflexivity|lia].
  - apply (listing_by_user_after_logging
             (post (JObj [("user_id", JStr "5"); ("action", JStr "view_dashboard")]))
             (get "" (Some "5")) declared_world "5" 5); [reflexivity|reflexivity|lia].
Defined.

(** ** The error middleware *)

(** X8: whatever error it is given, [errorHandler] answers with a nonzero
    status (the error's own, else 500), [success: false] and a nonempty
    message (the error's own, else the generic one); outside development
    the response has no other member, so the stack is never sent. *)
Theorem errorHandler_hides_stack_outside_development
    (env : option string) (err : AppError) (req : Request) (w : World) :
  exists (s : Z) (m : string) (payload : jsval),
    result (errorHandler env err req w) = Return (Responded s payload)
    /\ s <> 0 /\ (s = HTTP_STATUS.INTERNAL_SERVER_ERROR \/ statusCode err = Some s)
    /\ prop "success" payload = Some (JBool false)
    /\ prop "message" payload = Some (JStr m)
    /\ m <> "" /\ (m = ERROR_MESSAGES.INTERNAL_ERROR \/ m = app_message err)
    /\ (env <> Some "development" -> payload = JObj [("success", JBool false);
                                                     ("message", JStr m)])
    /\ (env = Some "development" -> prop "stack" payload = JStr <$> stack err)
    /\ same_state w (world_after (errorHandler env err req w)).
Proof.
  unfold errorHandler. exec.
  set (s := match statusCode err with
            | Some c => if (c =? 0)%Z then HTTP_STATUS.INTERNAL_SERVER_ERROR else c
            | None => HTTP_STATUS.INTERNAL_SERVER_ERROR
            end).
  set (m := if String.eqb (app_message err) "" then ERROR_MESSAGES.INTERNAL_ERROR
            else app_message err).
  exists s, m. eexists. split; [reflexivity|].
  assert (Hs : s <> 0 /\ (s = HTTP_STATUS.INTERNAL_SERVER_ERROR \/ statusCode err = Some s)).
  { subst s. destruct (statusCode err) as [c|]; [|by split; [|left]].
    destruct (Z.eqb_spec c 0); split; try done; [by left|by right]. }
  assert (Hm : m <> "" /\ (m = ERROR_MESSAGES.INTERNAL_ERROR \/ m = app_message err)).
  { subst m. destruct (String.eqb_spec (app_message err) ""); split; try done;
      [by left|by right]. }
  destruct Hs as [Hs1 Hs2], Hm as [Hm1 Hm2].
  repeat (split; [done|]).
  split; [|split; [|by repeat split]].
  - intros Hd. destruct env as [e|]; [|reflexivity].
    destruct (String.eqb_spec e "development") as [->|_]; [done|reflexivity].
  - intros ->. cbn. by destruct (stack err).
Qed.

(** X9: a request that no route answered gets 404 with the message
    "Route not found: " followed by the URL it asked for, in every
    environment; neither the status nor the message falls back to the
    defaults of the error handler. *)
Theorem unmatched_route_is_not_found
    (env : option string) (originalUrl trace : string) (req : Request) (w : World) :
  exists payload : jsval,
    result (unmatched env originalUrl trace req w)
    = Return (Responded HTTP_STATUS.NOT_FOUND payload)
    /\ prop "success" payload = Some (JBool false)
    /\ prop "message" payload = Some (JStr ("Route not found: " +:+ originalUrl))
    /\ (env <> Some "development" ->
        payload = JObj [("success", JBool false);
                        ("message", JStr ("Route not found: " +:+ originalUrl))]).
Proof.
  unfold unmatched, notFoundHandler, errorHandler. exec.
  eexists. split; [reflexivity|]. split; [reflexivity|]. split; [reflexivity|].
  intros Hd. destruct env as [e|]; [|reflexivity].
  destruct (String.eqb_spec e "development") as [->|_]; [done|reflexivity].
Qed.

(** ** The client and the controllers *)

(** X10: one call of the client is one HTTP request, whether it succeeds
    or fails (no retry): [predict] posts the profile to /predict once,
    [healthCheck] gets /health once, and neither touches the stores. *)
Theorem client_sends_one_request_per_call (p : UserProfile) (w : World) :
  ml_requests (world_after (MLServiceClient.predict p w))
  = (ml_requests w ++ [("/predict", UserProfile_json p)])%list
  /\ ml_requests (world_after (MLServiceClient.healthCheck w))
     = (ml_requests w ++ [("/health", JNull)])%list
  /\ profiles (world_after (MLServiceClient.predict p w)) = profiles w
  /\ usageLogs (world_after (MLServiceClient.predict p w)) = usageLogs w
  /\ profiles (world_after (MLServiceClient.healthCheck w)) = profiles w
  /\ usageLogs (world_after (MLServiceClient.healthCheck w)) = usageLogs w.
Proof.
  destruct (predict_world p w) as (_ & R & _ & P & _ & U & _).
  split; [exact R|]. split; [|split; [exact P|split; [exact U|]]];
    unfold MLServiceClient.healthCheck; exec;
    destruct (get_health (ml w)) as [r|e]; cbn; done.
Qed.

(** X11: every controller always sends a response: it never calls [next],
    and no exception escapes it, so the error handler is never reached
    from a controller.  The status is one of 200, 201, 400, 404 and 502, and
    the [success] member is true exactly when the status is below 400. *)
Theorem controllers_always_respond (req : Request) (w : World) :
  Forall (fun h : Handler =>
            exists (s : Z) (payload : jsval) (b : bool),
              result (h req w) = Return (Responded s payload)
              /\ s ∈ [200; 201; 400; 404; 502]
              /\ prop "success" payload = Some (JBool b)
              /\ (b = true <-> s < 400))
         controllers.
Proof.
  unfold controllers. repeat apply Forall_cons_2; [..|apply Forall_nil_2].
  - do 3 eexists. split; [reflexivity|]. split; [set_solver|]. by split.
  - destruct (parseInt (params_id req)) as [k|] eqn:P.
    + destruct (profiles w !! k) as [sp|] eqn:L.
      * rewrite (getProfile_found _ _ _ _ P L). do 3 eexists.
        split; [reflexivity|]. split; [set_solver|]. by split.
      * rewrite (getProfile_missing _ _ _ P L). do 3 eexists.
        split; [reflexivity|]. split; [set_solver|]. by split.
    + rewrite (getProfile_invalid _ _ P). do 3 eexists.
      split; [reflexivity|]. split; [set_solver|]. by split.
  - do 3 eexists. split; [reflexivity|]. split; [set_solver|]. by split.
  - do 3 eexists. split; [reflexivity|]. split; [set_solver|]. by split.
  - destruct (post_predict (ml w) (UserProfile_json (profile_of (body req))))
      as [r|e] eqn:E.
    + rewrite (getRecommendation_resolved _ _ _ E). do 3 eexists.
      split; [reflexivity|]. split; [set_solver|]. by split.
    + rewrite (getRecommendation_rejected _ _ _ E). do 3 eexists.
      split; [reflexivity|]. split; [set_solver|]. by split.
  - do 3 eexists. split; [reflexivity|]. split; [set_solver|]. by split.
Qed.

(** X12: a recommendation request that passes validation makes exactly one
    request to the ML service, carrying the four-member profile; the answer
    is 200 with the service's body when that request resolves and 502 when
    it is rejected; the profile store and the usage log are not touched. *)
Theorem valid_request_reaches_ml_once (req : Request) (w : World) :
  validationResult profileValidationRules (body req) = [] ->
  ml_requests (world_after (routes.recommendation req w))
  = (ml_requests w ++ [("/predict", UserProfile_json (profile_of (body req)))])%list
  /\ result (routes.recommendation req w)
     = Return (match post_predict (ml w) (UserProfile_json (profile_of (body req))) with
               | Resolved r => forwarded (data r)
               | Rejected e => bad_gateway e
               end)
  /\ profiles (world_after (routes.recommendation req w)) = profiles w
  /\ nextId (world_after (routes.recommendation req w)) = nextId w
  /\ usageLogs (world_after (routes.recommendation req w)) = usageLogs w.
Proof.
  intros V.
  assert (E : routes.recommendation req w = getRecommendation req w).
  { unfold routes.recommendation, route. unfold mbind at 1. unfold M_bind.
    rewrite (validate_accepts _ req w V).
    unfold mbind, M_bind. destruct (getRecommendation req w) as [[[| |]|] ?]; done. }
  rewrite E. split; [apply getRecommendation_requests|].
  destruct (getRecommendation_frame req w) as (P & N & U & _).
  split; [|done].
  destruct (post_predict (ml w) _) as [r|e] eqn:R.
  - by apply getRecommendation_resolved.
  - by apply getRecommendation_rejected.
Qed.

Lemma valid_request_reaches_ml_once_witness :
  validationResult profileValidationRules (body (post sample_body)) = []
  /\ ml_requests (world_after (routes.recommendation (post sample_body) not_ready_world))
     = [("/predict", UserProfile_json (profile_of sample_body))].
Proof.
  assert (V : validationResult profileValidationRules (body (post sample_body)) = [])
    by (by vm_compute).
  split; [exact V|].
  apply (valid_request_reaches_ml_once (post sample_body) not_ready_world V).
Defined.

(** ** Validation: what is reported, and what is looked at *)

Lemma validationResult_fields (b1 b2 : jsval) :
  (forall k, In k UserProfile_members -> prop k b1 = prop k b2) ->
  validationResult profileValidationRules b1 = validationResult profileValidationRules b2.
Proof.
  intros H. unfold validationResult, profileValidationRules.
  cbn [flat_map]. unfold run. cbn [path checks].
  rewrite (H "income"), (H "spending_score"), (H "saving_frequency"),
    (H "loan_behavior"); [done|..]; cbn; tauto.
Qed.

Lemma profile_of_fields (b1 b2 : jsval) :
  (forall k, In k UserProfile_members -> prop k b1 = prop k b2) ->
  profile_of b1 = profile_of b2.
Proof.
  intros H. unfold profile_of.
  rewrite (H "income"), (H "spending_score"), (H "saving_frequency"),
    (H "loan_behavior"); [done|..]; cbn; tauto.
Qed.

(** X13: only income, spending_score, saving_frequency and loan_behavior
    matter.  Two requests with the same method and path whose bodies agree
    on these four members get the same answer from [POST /api/recommend]
    and from [POST /api/profile] and leave the same world behind, whatever
    else their bodies hold. *)
Theorem only_declared_fields_matter (req1 req2 : Request) (w : World) :
  method req1 = method req2 ->
  req_path req1 = req_path req2 ->
  (forall k, In k UserProfile_members -> prop k (body req1) = prop k (body req2)) ->
  routes.recommendation req1 w = routes.recommendation req2 w
  /\ routes.profile_post req1 w = routes.profile_post req2 w.
Proof.
  intros Hm Hp H.
  pose proof (validationResult_fields _ _ H) as V.
  pose proof (profile_of_fields _ _ H) as P.
  assert (Ev : validate profileValidationRules req1 w = validate profileValidationRules req2 w).
  { unfold validate. by rewrite V, Hm, Hp. }
  assert (Er : forall w', getRecommendation req1 w' = getRecommendation req2 w').
  { intros w'. unfold getRecommendation. by rewrite P. }
  assert (Ec : forall w', createProfile req1 w' = createProfile req2 w').
  { intros w'. unfold createProfile. by rewrite P. }
  unfold routes.recommendation, routes.profile_post, route.
  unfold mbind, M_bind. rewrite Ev.
  destruct (validate profileValidationRules req2 w) as [[[| |]|] w']; try done.
  by rewrite Er, Ec.
Qed.

Lemma only_declared_fields_matter_witness :
  method (post sample_body) = method (post low_credit_body)
  /\ fst (routes.recommendation (post sample_body) declared_world)
     = fst (routes.recommendation (post low_credit_body) declared_world).
Proof.
  split; [reflexivity|].
  apply (f_equal fst).
  apply (only_declared_fields_matter (post sample_body) (post low_credit_body)
           declared_world); [reflexivity|reflexivity|].
  intros k [<-|[<-|[<-|[<-|[]]]]]; reflexivity.
Defined.

Lemma run_check_missing (p : string) (c : Validator * string) :
  run_check p None c = [{| err_path := p; err_msg := snd c; err_value := None |}].
Proof. destruct c as [[| |lo hi] m]; reflexivity. Qed.

(** X14: a field that is missing from the body fails every check of its
    chain, so it is reported once per check, in the order of the chain,
    with the message attached to each (for the profile rules: required,
    must be a number, out of range). *)
Theorem missing_field_fails_every_check (b : jsval) (c : ValidationChain) :
  prop (path c) b = None ->
  run b c = (fun t => {| err_path := path c; err_msg := snd t; err_value := None |})
              <$> checks c.
Proof.
  intros H. unfold run. rewrite H.
  induction (checks c) as [|t ts IH]; [done|].
  cbn [flat_map fmap list_fmap]. rewrite run_check_missing. cbn. f_equal. exact IH.
Qed.

Lemma missing_field_fails_every_check_witness :
  prop "loan_behavior" (JObj [("income", JInt 50000)]) = None
  /\ err_msg <$> run (JObj [("income", JInt 50000)])
                     {| path := "loan_behavior";
                        checks := [(Exists, "Loan behavior is required");
                                   (IsNumeric, "Loan behavior must be a number");
                                   (IsFloat (Some 0%Q) (Some (inject_Z 5)),
                                    "Loan behavior must be between 0 and 5")] |}
     = ["Loan behavior is required"; "Loan behavior must be a number";
        "Loan behavior must be between 0 and 5"].
Proof.
  split; [reflexivity|].
  rewrite (missing_field_fails_every_check (JObj [("income", JInt 50000)])
             {| path := "loan_behavior";
                checks := [(Exists, "Loan behavior is required");
                           (IsNumeric, "Loan behavior must be a number");
                           (IsFloat (Some 0%Q) (Some (inject_Z 5)),
                            "Loan behavior must be between 0 and 5")] |});
    reflexivity.
Defined.

Lemma number_chain (b : jsval) (k m1 m2 m3 : string) (lo hi : option Q) (q : Q) :
  prop k b = Some (JNum q) ->
  js_plain q = true ->
  run b {| path := k;
           checks := [(Exists, m1); (IsNumeric, m2); (IsFloat lo hi, m3)] |}
  = if at_least lo (Some q) && at_most hi (Some q) then []
    else [{| err_path := k; err_msg := m3; err_value := Some (JNum q) |}].
Proof.
  intros H P. unfold run. cbn [path checks flat_map run_check fst snd]. rewrite H.
  unfold standard. cbn [items_of flat_map toString ToString].
  unfold isNumeric, isFloat. cbn [num_form is_numeric is_float float_value].
  rewrite P. cbn [andb app].
  by destruct (at_least lo (Some q) && at_most hi (Some q)).
Qed.

(** X15: for a body whose four validated fields are JSON numbers (rendered
    without exponent), validation reports exactly the range message of each
    field that is out of range, in the order income, spending_score,
    saving_frequency, loan_behavior, and nothing else. *)
Theorem numeric_body_reports_only_ranges (b : jsval) (q1 q2 q3 q4 : Q) :
  prop "income" b = Some (JNum q1) -> js_plain q1 = true ->
  prop "spending_score" b = Some (JNum q2) -> js_plain q2 = true ->
  prop "saving_frequency" b = Some (JNum q3) -> js_plain q3 = true ->
  prop "loan_behavior" b = Some (JNum q4) -> js_plain q4 = true ->
  err_msg <$> validationResult profileValidationRules b
  = ((if Qle_bool 0 q1 then [] else ["Income must be non-negative"])
     ++ (if Qle_bool 0 q2 && Qle_bool q2 (inject_Z 100) then []
         else ["Spending score must be between 0 and 100"])
     ++ (if Qle_bool 0 q3 && Qle_bool q3 (inject_Z 10) then []
         else ["Saving frequency must be between 0 and 10"])
     ++ (if Qle_bool 0 q4 && Qle_bool q4 (inject_Z 5) then []
         else ["Loan behavior must be between 0 and 5"]))%list.
Proof.
  intros H1 P1 H2 P2 H3 P3 H4 P4.
  unfold validationResult, profileValidationRules. cbn [flat_map].
  rewrite (number_chain b _ _ _ _ _ _ q1 H1 P1), (number_chain b _ _ _ _ _ _ q2 H2 P2),
    (number_chain b _ _ _ _ _ _ q3 H3 P3), (number_chain b _ _ _ _ _ _ q4 H4 P4).
  cbn [at_least at_most]. rewrite andb_true_r, app_nil_r, !fmap_app.
  repeat f_equal;
    match goal with |- context [if ?c then _ else _] => by destruct c end.
Qed.

Lemma numeric_body_reports_only_ranges_witness :
  js_plain (inject_Z 101) = true
  /\ err_msg <$> validationResult profileValidationRules
                   (JObj [("income", JInt (-1)); ("spending_score", JInt 101);
                          ("saving_frequency", JInt 7); ("loan_behavior", JInt 2)])
     = ["Income must be non-negative"; "Spending score must be between 0 and 100"].
Proof.
  split; [reflexivity|].
  apply (numeric_body_reports_only_ranges
           (JObj [("income", JInt (-1)); ("spending_score", JInt 101);
                  ("saving_frequency", JInt 7); ("loan_behavior", JInt 2)])
           (inject_Z (-1)) (inject_Z 101) (inject_Z 7) (inject_Z 2));
    reflexivity.
Defined.




(** ** The usage rules and [POST /api/usage] *)





Lemma validate_by_accepts (collect : jsval -> list ValidationError)
    (req : Request) (w : World) :
  collect (body req) = [] -> validate_by collect req w = (Return Next, w).
Proof. intros H. unfold validate_by. by rewrite H. Qed.

Lemma validate_by_rejects (collect : jsval -> list ValidationError)
    (req : Request) (w : World) :
  collect (body req) <> [] ->
  sent_status (result (validate_by collect req w)) = Some HTTP_STATUS.BAD_REQUEST
  /\ same_state w (world_after (validate_by collect req w)).
Proof.
  intros H. unfold validate_by. destruct (collect (body req)); [done|].
  by repeat split.
Qed.

(** X18: [POST /api/usage] logs nothing for a body that fails the usage
    rules (400, log and id counter untouched) and appends one entry with the
    next id for a body that passes (201). *)
Theorem usage_post_logs_only_valid (req : Request) (w : World) :
  match UsageValidator.validationResult usageValidationRules (body req) with
  | [] =>
      sent_status (result (usage_post req w)) = Some HTTP_STATUS.CREATED
      /\ usageLogs (world_after (usage_post req w))
         = (usageLogs w ++ [entry_at req w])%list
      /\ nextLogId (world_after (usage_post req w)) = nextLogId w + 1
  | _ :: _ =>
      sent_status (result (usage_post req w)) = Some HTTP_STATUS.BAD_REQUEST
      /\ usageLogs (world_after (usage_post req w)) = usageLogs w
      /\ nextLogId (world_after (usage_post req w)) = nextLogId w
  end.
Proof.
  unfold usage_post, route.
  destruct (UsageValidator.validationResult usageValidationRules (body req))
    as [|e es] eqn:V.
  - unfold mbind at 1 3 5. unfold M_bind.
    rewrite (validate_by_accepts _ req w V). by repeat split.
  - assert (N : UsageValidator.validationResult usageValidationRules (body req) <> [])
      by (by rewrite V).
    destruct (validate_by_rejects _ req w N) as (S & _ & _ & _ & _ & _ & U & L).
    unfold mbind at 1 3 5. unfold M_bind.
    destruct (validate_by _ req w) as [[[s p| |e']|e'] w'] eqn:R; try done.
Qed.

(** [validate] is the middleware with the profile chains collected. *)
Lemma validate_is_validate_by (rules : list ValidationChain) :
  validate rules = validate_by (validationResult rules).
Proof. reflexivity. Qed.
